(** * PythonAutoStartStop: the runbook script and what a run of it does

    The repository holds one Python 2 script, [PythonAutoStartStop.py].
    This development has two parts.

    - [Module Source] carries the text of the script, line by line, and
      the part of Python's lexical analysis that turns physical lines
      into logical lines and checks that every compound-statement header
      is followed by an indented block.
    - [Module Runbook] is the shallow embedding of the statements of the
      script: [get_automation_runas_credential] and the module body, in
      an exception-and-trace monad over the external collaborators
      (automationassets, OpenSSL, adal, msrestazure, azure.mgmt.resource).
*)

From Stdlib Require Import Ascii String.
From stdpp Require Import base strings list gmap.

Local Open Scope string_scope.
Local Open Scope list_scope.
Local Open Scope nat_scope.
Local Open Scope stdpp_scope.

(* ===================================================================== *)
(** ** The source text and its line structure                             *)
(* ===================================================================== *)

Module Source.

(** The double-quote character, written by its code. *)
Definition dq : string := String "034"%char EmptyString.

(** [PythonAutoStartStop.py], one entry per physical line (82 lines). *)
Definition source : list string :=
  [
    (*  1 *) dq +:+ dq +:+ dq;
    (*  2 *) "Python support for Azure automation is now public preview!";
    (*  3 *) EmptyString;
    (*  4 *) "Azure Automation documentation : https://aka.ms/azure-automation-python-documentation";
    (*  5 *) "Azure Python SDK documentation : https://aka.ms/azure-python-sdk";
    (*  6 *) EmptyString;
    (*  7 *) "This tutorial runbook demonstrate how to authenticate against Azure using the Azure automation service principal and then lists the resource groups present in the specified subscription.";
    (*  8 *) dq +:+ dq +:+ dq;
    (*  9 *) "import azure.mgmt.resource";
    (* 10 *) "import automationassets";
    (* 11 *) "from msrestazure.azure_cloud import AZURE_PUBLIC_CLOUD";
    (* 12 *) EmptyString;
    (* 13 *) "def get_automation_runas_credential(runas_connection, resource_url, authority_url ):";
    (* 14 *) "    " +:+ dq +:+ dq +:+ dq +:+ " Returns credentials to authenticate against Azure resoruce manager " +:+ dq +:+ dq +:+ dq;
    (* 15 *) "    from OpenSSL import crypto";
    (* 16 *) "    from msrestazure import azure_active_directory";
    (* 17 *) "    import adal";
    (* 18 *) EmptyString;
    (* 19 *) "    # Get the Azure Automation RunAs service principal certificate";
    (* 20 *) "    cert = automationassets.get_automation_certificate(" +:+ dq +:+ "AzureRunAsCertificate" +:+ dq +:+ ")";
    (* 21 *) "    pks12_cert = crypto.load_pkcs12(cert)";
    (* 22 *) "    pem_pkey = crypto.dump_privatekey(crypto.FILETYPE_PEM, pks12_cert.get_privatekey())";
    (* 23 *) EmptyString;
    (* 24 *) "    # Get run as connection information for the Azure Automation service principal";
    (* 25 *) "    application_id = runas_connection[" +:+ dq +:+ "ApplicationId" +:+ dq +:+ "]";
    (* 26 *) "    thumbprint = runas_connection[" +:+ dq +:+ "CertificateThumbprint" +:+ dq +:+ "]";
    (* 27 *) "    tenant_id = runas_connection[" +:+ dq +:+ "TenantId" +:+ dq +:+ "]";
    (* 28 *) EmptyString;
    (* 29 *) "    # Authenticate with service principal certificate";
    (* 30 *) "    authority_full_url = (authority_url + '/' + tenant_id)";
    (* 31 *) "    context = adal.AuthenticationContext(authority_full_url)";
    (* 32 *) "    return azure_active_directory.AdalAuthentication(";
    (* 33 *) "        lambda: context.acquire_token_with_client_certificate(";
    (* 34 *) "            resource_url,";
    (* 35 *) "            application_id,";
    (* 36 *) "            pem_pkey,";
    (* 37 *) "            thumbprint)";
    (* 38 *) "    )";
    (* 39 *) EmptyString;
    (* 40 *) "def get_current_date():";
    (* 41 *) "    # Get the current time and date from the system clock";
    (* 42 *) EmptyString;
    (* 43 *) "def test_schedule_entry():";
    (* 44 *) "    # Parse and evaluate the schedule values";
    (* 45 *) EmptyString;
    (* 46 *) "def assert_resource_power_state():";
    (* 47 *) "    # Check the current state of the specified VMs and apply the correct actions";
    (* 48 *) EmptyString;
    (* 49 *) "# Authenticate to Azure using the Azure Automation RunAs service principal";
    (* 50 *) "runas_connection = automationassets.get_automation_connection(" +:+ dq +:+ "AzureRunAsConnection" +:+ dq +:+ ")";
    (* 51 *) "resource_url = AZURE_PUBLIC_CLOUD.endpoints.active_directory_resource_id";
    (* 52 *) "authority_url = AZURE_PUBLIC_CLOUD.endpoints.active_directory";
    (* 53 *) "resourceManager_url = AZURE_PUBLIC_CLOUD.endpoints.resource_manager";
    (* 54 *) "azure_credential = get_automation_runas_credential(runas_connection, resource_url, authority_url)";
    (* 55 *) EmptyString;
    (* 56 *) "# Intialize the resource management client with the RunAs credential and subscription";
    (* 57 *) "resource_client = azure.mgmt.resource.ResourceManagementClient(";
    (* 58 *) "    azure_credential,";
    (* 59 *) "    str(runas_connection[" +:+ dq +:+ "SubscriptionId" +:+ dq +:+ "]),";
    (* 60 *) "    base_url=resourceManager_url)";
    (* 61 *) EmptyString;
    (* 62 *) "# Get list of resource groups and print them out";
    (* 63 *) "groups = resource_client.resource_groups.list()";
    (* 64 *) "for group in groups:";
    (* 65 *) "    print group.name.encode('utf-8')";
    (* 66 *) EmptyString;
    (* 67 *) EmptyString;
    (* 68 *) "# Get current system time";
    (* 69 *) EmptyString;
    (* 70 *) "# Search for VMs of all (3) types";
    (* 71 *) "# Find resource groups with matching tags";
    (* 72 *) EmptyString;
    (* 73 *) "# Process the VMs and:";
    (* 74 *) "#       - Add the ones with a matching tag to a new list";
    (* 75 *) "#       - Add properties to VM resource object";
    (* 76 *) EmptyString;
    (* 77 *) "# Parse and process the tags for the VMs and the resource groups";
    (* 78 *) "# Determine if the current time falls within the schedule tags";
    (* 79 *) EmptyString;
    (* 80 *) "# Apply the correct action based on the schedule matching and the running mode";
    (* 81 *) "#       - Perform in parallel";
    (* 82 *) "#       - Enforce a processing order, probably same as the PowerShell runbook script"
  ].

(** *** Physical lines to logical lines

    Python reads a file as a sequence of logical lines.  A physical line
    that holds only white space, or only a comment, produces no token.
    A logical line runs over several physical lines while a bracket is
    open, while a triple-quoted string is open, or after a trailing
    backslash.  The indentation of a logical line is the column of its
    first character (a tab moves to the next multiple of eight). *)

Inductive lexmode :=
| Code                  (* outside any string literal *)
| Short (q : ascii)     (* inside a string opened by one quote *)
| Long (q : ascii).     (* inside a string opened by three quotes *)

Definition is_quote (c : ascii) : bool :=
  (c =? "'")%char || (c =? "034")%char.
Definition is_open (c : ascii) : bool :=
  (c =? "(")%char || (c =? "[")%char || (c =? "{")%char.
Definition is_close (c : ascii) : bool :=
  (c =? ")")%char || (c =? "]")%char || (c =? "}")%char.
Definition is_blank (c : ascii) : bool :=
  (c =? " ")%char || (c =? "009")%char || (c =? "012")%char.

(** Scanner state carried along a logical line: the mode, the number of
    open brackets and the last character that belongs to a token. *)
Record lexstate := LexState {
  ls_mode : lexmode;
  ls_depth : nat;
  ls_last : option ascii
}.

(** One physical line, character by character.  A [#] in code ends the
    line; a backslash inside a string protects the next character. *)
Fixpoint scan (m : lexmode) (d : nat) (last : option ascii)
    (cs : list ascii) : lexstate :=
  match cs with
  | [] => LexState m d last
  | c :: rest =>
    match m with
    | Code =>
      if (c =? "#")%char then LexState Code d last
      else if is_quote c then
        match rest with
        | c1 :: c2 :: rest' =>
          if (c1 =? c)%char && (c2 =? c)%char
          then scan (Long c) d (Some c) rest'
          else scan (Short c) d (Some c) rest
        | _ => scan (Short c) d (Some c) rest
        end
      else if is_open c then scan Code (S d) (Some c) rest
      else if is_close c then scan Code (pred d) (Some c) rest
      else if is_blank c then scan Code d last rest
      else scan Code d (Some c) rest
    | Short q =>
      if (c =? "\")%char then
        match rest with
        | _ :: rest' => scan (Short q) d (Some c) rest'
        | [] => LexState (Short q) d (Some c)
        end
      else if (c =? q)%char then scan Code d (Some c) rest
      else scan (Short q) d (Some c) rest
    | Long q =>
      if (c =? "\")%char then
        match rest with
        | _ :: rest' => scan (Long q) d (Some c) rest'
        | [] => LexState (Long q) d (Some c)
        end
      else if (c =? q)%char then
        match rest with
        | c1 :: c2 :: rest' =>
          if (c1 =? q)%char && (c2 =? q)%char
          then scan Code d (Some c) rest'
          else scan (Long q) d (Some c) rest
        | _ => scan (Long q) d (Some c) rest
        end
      else scan (Long q) d (Some c) rest
    end
  end.

(** Column of the first non-blank character, and the rest of the line. *)
Fixpoint indentation (col : nat) (cs : list ascii) : nat * list ascii :=
  match cs with
  | c :: rest =>
    if (c =? " ")%char then indentation (S col) rest
    else if (c =? "009")%char then indentation ((col / 8 + 1) * 8) rest
    else if (c =? "012")%char then indentation 0 rest
    else (col, cs)
  | [] => (col, [])
  end.

(** A line with no token: blank, or a comment only. *)
Definition no_token (body : list ascii) : bool :=
  match body with
  | [] => true
  | c :: _ => (c =? "#")%char
  end.

(** A logical line: the number of its first physical line, its
    indentation, its text on that first line, and whether its last token
    is a colon (the mark of a compound-statement header). *)
Record lline := LLine {
  ll_line : nat;
  ll_indent : nat;
  ll_text : string;
  ll_colon : bool
}.

Inductive syntax_error :=
| EOLInString (line : nat)           (* EOL while scanning string literal *)
| EOFInStatement (line : nat)        (* EOF in multi-line statement/string *)
| ExpectedIndentedBlock (line : nat) (* IndentationError: expected an indented block *)
| UnexpectedIndent (line : nat)      (* IndentationError: unexpected indent *)
| UnindentMismatch (line : nat).     (* IndentationError: unindent does not match *)

Definition ends_with_colon (st : lexstate) : bool :=
  match ls_last st with
  | Some c => (c =? ":")%char
  | None => false
  end.

Definition ends_with_backslash (st : lexstate) : bool :=
  match ls_mode st, ls_last st with
  | Code, Some c => (c =? "\")%char
  | _, _ => false
  end.

(** Does the logical line go on after this physical line? *)
Definition continues (st : lexstate) : bool :=
  match ls_mode st with
  | Long _ => true
  | _ => (0 <? ls_depth st)%nat || ends_with_backslash st
  end.

(** [logical n open ls]: the logical lines of the physical lines [ls],
    the first of which has number [n]; [open] is the logical line under
    way, if one is, with the scanner state reached so far. *)
Fixpoint logical (n : nat) (open : option (lline * lexstate))
    (ls : list string) : syntax_error + list lline :=
  match ls with
  | [] =>
    match open with
    | Some (l, _) => inl (EOFInStatement (ll_line l))
    | None => inr []
    end
  | p :: rest =>
    let cs := list_ascii_of_string p in
    let '(start, st) :=
      match open with
      | Some (l, st0) =>
        (Some l, scan (ls_mode st0) (ls_depth st0)
                      (if ends_with_backslash st0 then None else ls_last st0) cs)
      | None =>
        let '(col, body) := indentation 0 cs in
        if no_token body then (None, LexState Code 0 None)
        else (Some (LLine n col (string_of_list_ascii body) false),
              scan Code 0 None body)
      end in
    match start with
    | None => logical (S n) None rest
    | Some l =>
      match ls_mode st with
      | Short _ => inl (EOLInString n)
      | _ =>
        if continues st then logical (S n) (Some (l, st)) rest
        else
          let l' := LLine (ll_line l) (ll_indent l) (ll_text l)
                          (ends_with_colon st) in
          match logical (S n) None rest with
          | inl e => inl e
          | inr lls => inr (l' :: lls)
          end
      end
    end
  end.

Definition logical_lines (src : list string) : syntax_error + list lline :=
  logical 1 None src.

(** *** Blocks

    The suite of a compound statement whose header ends its line is
    [NEWLINE INDENT stmt+ DEDENT]: the next logical line has to be
    indented deeper than the header.  The tokenizer keeps a stack of
    indentation levels, the bottom one being column 0. *)

Fixpoint unindent (col : nat) (stack : list nat) : option (list nat) :=
  match stack with
  | [] => if (col =? 0)%nat then Some [] else None
  | top :: below =>
    if (col =? top)%nat then Some stack
    else if (top <? col)%nat then None
    else unindent col below
  end.

(** [check_blocks stack header ls]: [stack] holds the indentation levels
    above column 0, [header] is the header just read when a block has to
    open. *)
Fixpoint check_blocks (stack : list nat) (header : option lline)
    (ls : list lline) : syntax_error + unit :=
  match ls with
  | [] =>
    match header with
    | Some h => inl (ExpectedIndentedBlock (ll_line h))
    | None => inr ()
    end
  | l :: rest =>
    let top := hd 0 stack in
    let next := if ll_colon l then Some l else None in
    match header with
    | Some _ =>
      if (top <? ll_indent l)%nat
      then check_blocks (ll_indent l :: stack) next rest
      else inl (ExpectedIndentedBlock (ll_line l))
    | None =>
      if (top <? ll_indent l)%nat then inl (UnexpectedIndent (ll_line l))
      else
        match unindent (ll_indent l) stack with
        | Some stack' => check_blocks stack' next rest
        | None => inl (UnindentMismatch (ll_line l))
        end
    end
  end.

(** What the interpreter does with a file before it runs any statement of
    it: the whole text is tokenized and parsed.  The check here is the
    part of that which Python 2 and Python 3 share. *)
Definition compile (src : list string) : syntax_error + list lline :=
  match logical_lines src with
  | inl e => inl e
  | inr lls =>
    match check_blocks [] None lls with
    | inl e => inl e
    | inr _ => inr lls
    end
  end.

(** *** Reading the structure off the logical lines *)

(** Headers that no statement follows at a deeper indentation. *)
Fixpoint empty_suites (ls : list lline) : list lline :=
  match ls with
  | [] => []
  | h :: rest =>
    let tail := empty_suites rest in
    if ll_colon h then
      match rest with
      | l :: _ => if (ll_indent h <? ll_indent l)%nat then tail else h :: tail
      | [] => h :: tail
      end
    else tail
  end.

Definition is_ident_char (c : ascii) : bool :=
  let n := nat_of_ascii c in
  ((48 <=? n) && (n <=? 57) || (65 <=? n) && (n <=? 90)
   || (97 <=? n) && (n <=? 122) || (n =? 95))%nat.

Fixpoint take_ident (cs : list ascii) : list ascii :=
  match cs with
  | c :: rest => if is_ident_char c then c :: take_ident rest else []
  | [] => []
  end.

(** The name a [def] line defines. *)
Definition def_name (l : lline) : option string :=
  if String.prefix "def " (ll_text l)
  then Some (string_of_list_ascii
               (take_ident (drop 4 (list_ascii_of_string (ll_text l)))))
  else None.

(** What stands between the brackets of a [def] line. *)
Definition def_params (l : lline) : option string :=
  match def_name l with
  | Some f =>
    let after := String.substring (4 + String.length f)
                   (String.length (ll_text l)) (ll_text l) in
    match String.index 0 ")" after with
    | Some k => Some (String.substring 1 (k - 1) after)
    | None => None
    end
  | None => None
  end.

(** The first word of a logical line. *)
Definition keyword (l : lline) : string :=
  string_of_list_ascii (take_ident (list_ascii_of_string (ll_text l))).

Definition contains (needle hay : string) : bool :=
  match String.index 0 needle hay with
  | Some _ => true
  | None => false
  end.

(** Numbers of the physical lines in which [needle] occurs. *)
Fixpoint lines_with (needle : string) (n : nat) (ls : list string) : list nat :=
  match ls with
  | [] => []
  | p :: rest =>
    if contains needle p then n :: lines_with needle (S n) rest
    else lines_with needle (S n) rest
  end.

(** A physical line that yields no token. *)
Definition blank_or_comment (p : string) : bool :=
  no_token (snd (indentation 0 (list_ascii_of_string p))).

(** The three declarations at lines 40, 43 and 46: line, name and
    parameters. *)
Definition stubs : list (nat * option string * option string) :=
  [ (40, Some "get_current_date", Some EmptyString);
    (43, Some "test_schedule_entry", Some EmptyString);
    (46, Some "assert_resource_power_state", Some EmptyString) ].

End Source.
(* ===================================================================== *)
(** ** The statements of the script                                       *)
(* ===================================================================== *)

Module Runbook.

(** *** Observable steps

    Every call that leaves the script for a collaborator, every call of
    one of the script's own functions, and every printed line is an
    event.  The last five constructors are the interactions that the
    script's trailing comments (lines 68 to 82) and its stub names speak
    of; they are here so that their absence from a run can be stated. *)
Inductive event :=
| EvImport (module : string)
| EvCall (function : string)
| EvGetConnection (name : string)
| EvGetCertificate (name : string)
| EvLoadPkcs12 (blob : string)
| EvDumpPrivateKey (key : string)
| EvAuthenticationContext (authority : string)
| EvAcquireToken (resource client_id certificate thumbprint : string)
| EvResourceManagementClient (subscription_id base_url : string)
| EvResourceGroupsList
| EvRequestPage (page : nat)
| EvPrint (line : string)
| EvClock
| EvListCompute (kind : nat)
| EvGetTags (resource : string)
| EvStart (resource : string)
| EvStop (resource : string).

(** Exceptions: [KeyError] is raised by a dict subscript of the script
    itself, [UnicodeEncodeError] by [str] on a non-ASCII text, every
    other one comes out of a collaborator and is known by its class. *)
Inductive exn :=
| KeyError (key : string)
| UnicodeEncodeError
| Exception (class : string).

(** A computation yields the events it performed and then either the
    exception that stopped it or its value.  There is no handler
    anywhere in the script, so the monad has none. *)
Definition M (A : Type) : Type := (list event * (exn + A))%type.

Definition trace {A} (m : M A) : list event := fst m.
Definition outcome {A} (m : M A) : exn + A := snd m.

#[global] Instance M_ret : MRet M := λ A a, ([], inr a).
#[global] Instance M_bind : MBind M := λ A B k m,
  match m with
  | (t, inl e) => (t, inl e)
  | (t, inr a) => let '(t', r) := k a in (t ++ t', r)
  end.

Definition raise {A} (e : exn) : M A := ([], inl e).

(** One call of a collaborator: the event, then what came back. *)
Definition call {A} (ev : event) (r : exn + A) : M A := ([ev], r).

(** [for x in xs: body x] *)
Fixpoint for_each {A} (xs : list A) (body : A → M ()) : M () :=
  match xs with
  | [] => mret ()
  | x :: rest => body x ;; for_each rest body
  end.

(** *** Values of the collaborators *)

Record PKCS12 := { get_privatekey : string }.
Record AuthenticationContext := { authority : string }.
Record ResourceGroup := { rg_name : string }.

(** [msrestazure.azure_active_directory.AdalAuthentication(method)]: the
    constructor stores the callable it is given and calls nothing. *)
Record AdalAuthentication := { adal_method : () → M string }.

(** [AdalAuthentication.signed_session]: the stored callable is called
    each time a request has to be signed. *)
Definition signed_session (cred : AdalAuthentication) : M string :=
  adal_method cred ().

Record CloudEndpoints := {
  active_directory_resource_id : string;
  active_directory : string;
  resource_manager : string
}.

(** A page of the resource-group listing answers a signed request. *)
Definition page : Type := string → exn + list ResourceGroup.

(** The collaborators, none of them code of this repository. *)
Record World := {
  (* the interpreter's import system *)
  import_module : string → exn + ();
  (* automationassets *)
  get_automation_connection : string → exn + gmap string string;
  get_automation_certificate : string → exn + string;
  (* OpenSSL.crypto *)
  load_pkcs12 : string → exn + PKCS12;
  dump_privatekey : string → exn + string;
  (* adal *)
  new_AuthenticationContext : string → exn + AuthenticationContext;
  acquire_token_with_client_certificate :
    AuthenticationContext → string → string → string → string → exn + string;
  (* msrestazure.azure_cloud *)
  AZURE_PUBLIC_CLOUD : CloudEndpoints;
  (* azure.mgmt.resource *)
  new_ResourceManagementClient : string → string → exn + ();
  resource_group_pages : string → string → page * list page
}.

Record ResourceManagementClient := {
  rc_credentials : AdalAuthentication;
  rc_subscription_id : string;
  rc_base_url : string
}.

(** The pager that [resource_groups.list()] returns: nothing is requested
    until it is iterated. *)
Record ResourceGroupPaged := {
  pg_credentials : AdalAuthentication;
  pg_pages : list page
}.

(** *** Python built-ins the script uses *)

(** [d[key]] *)
Definition getitem (d : gmap string string) (key : string) : M string :=
  match d !! key with
  | Some v => mret v
  | None => raise (KeyError key)
  end.

Definition is_ascii (c : ascii) : bool := (nat_of_ascii c <? 128)%nat.

(** [str(u)] in Python 2: the ASCII codec. *)
Definition py_str (u : string) : M string :=
  if forallb is_ascii (list_ascii_of_string u) then mret u
  else raise UnicodeEncodeError.

(** [u.encode('utf-8')], a text being a string of code points below 256. *)
Definition utf8_char (c : ascii) : list ascii :=
  let n := nat_of_ascii c in
  if (n <? 128)%nat then [c]
  else [ascii_of_nat (192 + n / 64); ascii_of_nat (128 + n mod 64)].

Definition encode_utf8 (u : string) : string :=
  string_of_list_ascii (concat (map utf8_char (list_ascii_of_string u))).

(** [print s] *)
Definition print (s : string) : M () := call (EvPrint s) (inr ()).

Section Script.
Context (w : World).

Definition import (module : string) : M () :=
  call (EvImport module) (import_module w module).

(** Lines 13 to 38. *)
Definition get_automation_runas_credential
    (runas_connection : gmap string string)
    (resource_url authority_url : string) : M AdalAuthentication :=
  call (EvCall "get_automation_runas_credential") (inr ()) ;;
  import "OpenSSL" ;;
  import "msrestazure" ;;
  import "adal" ;;
  cert ← call (EvGetCertificate "AzureRunAsCertificate")
            (get_automation_certificate w "AzureRunAsCertificate");
  pks12_cert ← call (EvLoadPkcs12 cert) (load_pkcs12 w cert);
  pem_pkey ← call (EvDumpPrivateKey (get_privatekey pks12_cert))
                (dump_privatekey w (get_privatekey pks12_cert));
  application_id ← getitem runas_connection "ApplicationId";
  thumbprint ← getitem runas_connection "CertificateThumbprint";
  tenant_id ← getitem runas_connection "TenantId";
  let authority_full_url := authority_url +:+ "/" +:+ tenant_id in
  context ← call (EvAuthenticationContext authority_full_url)
               (new_AuthenticationContext w authority_full_url);
  mret {| adal_method := λ _,
            call (EvAcquireToken resource_url application_id pem_pkey thumbprint)
                 (acquire_token_with_client_certificate w context
                    resource_url application_id pem_pkey thumbprint) |}.

(** [resource_client.resource_groups.list()] *)
Definition resource_groups_list (c : ResourceManagementClient)
    : M ResourceGroupPaged :=
  let '(first, more) :=
    resource_group_pages w (rc_subscription_id c) (rc_base_url c) in
  call EvResourceGroupsList
       (inr {| pg_credentials := rc_credentials c; pg_pages := first :: more |}).

(** Iterating the pager: each page is one signed request. *)
Fixpoint iterate (cred : AdalAuthentication) (i : nat) (pages : list page)
    (body : ResourceGroup → M ()) : M () :=
  match pages with
  | [] => mret ()
  | p :: rest =>
    token ← signed_session cred;
    groups ← call (EvRequestPage i) (p token);
    for_each groups body ;;
    iterate cred (S i) rest body
  end.

(** Lines 9 to 65: the statements at module level, in their order.  The
    four [def] statements bind a name and do nothing else. *)
Definition module_body : M () :=
  import "azure.mgmt.resource" ;;
  import "automationassets" ;;
  import "msrestazure.azure_cloud" ;;
  runas_connection ← call (EvGetConnection "AzureRunAsConnection")
                        (get_automation_connection w "AzureRunAsConnection");
  let resource_url := active_directory_resource_id (AZURE_PUBLIC_CLOUD w) in
  let authority_url := active_directory (AZURE_PUBLIC_CLOUD w) in
  let resourceManager_url := resource_manager (AZURE_PUBLIC_CLOUD w) in
  azure_credential ←
    get_automation_runas_credential runas_connection resource_url authority_url;
  subscription ← getitem runas_connection "SubscriptionId";
  subscription_id ← py_str subscription;
  resource_client ←
    (call (EvResourceManagementClient subscription_id resourceManager_url)
          (new_ResourceManagementClient w subscription_id resourceManager_url) ;;
     mret {| rc_credentials := azure_credential;
             rc_subscription_id := subscription_id;
             rc_base_url := resourceManager_url |});
  groups ← resource_groups_list resource_client;
  iterate (pg_credentials groups) 0 (pg_pages groups)
          (λ group, print (encode_utf8 (rg_name group))).

(** Running the file: the text is compiled first, and only a text that
    compiles has its statements run. *)
Definition run_program : Source.syntax_error + M () :=
  match Source.compile Source.source with
  | inl e => inl e
  | inr _ => inr module_body
  end.

End Script.

(** *** The parts of the job

    The script's docstring and comments name what it is for.  An event
    belongs to the part of the job it serves. *)
Inductive functionality :=
| CredentialAcquisition
| ResourceGroupListing
| ClockReading
| VmEnumeration
| ScheduleEvaluation
| PowerAction
| Unknown.

Definition functionality_of (ev : event) : functionality :=
  match ev with
  | EvImport m =>
    if String.eqb m "azure.mgmt.resource" then ResourceGroupListing
    else if bool_decide (m ∈ ["automationassets"; "msrestazure.azure_cloud";
                              "OpenSSL"; "msrestazure"; "adal"])
         then CredentialAcquisition
         else Unknown
  | EvCall f =>
    if String.eqb f "get_automation_runas_credential" then CredentialAcquisition
    else if String.eqb f "get_current_date" then ClockReading
    else if String.eqb f "test_schedule_entry" then ScheduleEvaluation
    else if String.eqb f "assert_resource_power_state" then PowerAction
    else Unknown
  | EvGetConnection _ | EvGetCertificate _ | EvLoadPkcs12 _
  | EvDumpPrivateKey _ | EvAuthenticationContext _
  | EvAcquireToken _ _ _ _ => CredentialAcquisition
  | EvResourceManagementClient _ _ | EvResourceGroupsList
  | EvRequestPage _ | EvPrint _ => ResourceGroupListing
  | EvClock => ClockReading
  | EvListCompute _ | EvGetTags _ => VmEnumeration
  | EvStart _ | EvStop _ => PowerAction
  end.

(** The two parts the script has statements for. *)
Definition implemented (ev : event) : bool :=
  match functionality_of ev with
  | CredentialAcquisition | ResourceGroupListing => true
  | _ => false
  end.

(** A call of one of the three functions declared at lines 40, 43, 46. *)
Definition stub_call (ev : event) : bool :=
  match ev with
  | EvCall f =>
    bool_decide (f ∈ ["get_current_date"; "test_schedule_entry";
                      "assert_resource_power_state"])
  | _ => false
  end.

Definition is_acquire_token (ev : event) : bool :=
  match ev with
  | EvAcquireToken _ _ _ _ => true
  | _ => false
  end.

Definition is_listing_call (ev : event) : bool :=
  match ev with
  | EvResourceGroupsList | EvRequestPage _ => true
  | _ => false
  end.

Definition is_print (ev : event) : bool :=
  match ev with
  | EvPrint _ => true
  | _ => false
  end.

(** The events of one run of the file. *)
Definition run_trace (w : World) : list event :=
  match run_program w with
  | inl _ => []
  | inr m => trace m
  end.

(** *** The three commented sections of the module body *)

Section Phases.
Context (w : World).

(** Lines 9 to 11 and 49 to 54. *)
Definition authenticate : M (gmap string string * AdalAuthentication) :=
  import w "azure.mgmt.resource" ;;
  import w "automationassets" ;;
  import w "msrestazure.azure_cloud" ;;
  runas_connection ← call (EvGetConnection "AzureRunAsConnection")
                        (get_automation_connection w "AzureRunAsConnection");
  azure_credential ←
    get_automation_runas_credential w runas_connection
      (active_directory_resource_id (AZURE_PUBLIC_CLOUD w))
      (active_directory (AZURE_PUBLIC_CLOUD w));
  mret (runas_connection, azure_credential).

(** Lines 56 to 60. *)
Definition initialize_client (runas_connection : gmap string string)
    (azure_credential : AdalAuthentication) : M ResourceManagementClient :=
  subscription ← getitem runas_connection "SubscriptionId";
  subscription_id ← py_str subscription;
  call (EvResourceManagementClient subscription_id
          (resource_manager (AZURE_PUBLIC_CLOUD w)))
       (new_ResourceManagementClient w subscription_id
          (resource_manager (AZURE_PUBLIC_CLOUD w))) ;;
  mret {| rc_credentials := azure_credential;
          rc_subscription_id := subscription_id;
          rc_base_url := resource_manager (AZURE_PUBLIC_CLOUD w) |}.

(** Lines 62 to 65. *)
Definition list_and_print (resource_client : ResourceManagementClient) : M () :=
  groups ← resource_groups_list w resource_client;
  iterate (pg_credentials groups) 0 (pg_pages groups)
          (λ group, print (encode_utf8 (rg_name group))).

End Phases.

(** The same world with another token endpoint. *)
Definition with_token_endpoint (w : World)
    (f : AuthenticationContext → string → string → string → string
         → exn + string) : World := {|
  import_module := import_module w;
  get_automation_connection := get_automation_connection w;
  get_automation_certificate := get_automation_certificate w;
  load_pkcs12 := load_pkcs12 w;
  dump_privatekey := dump_privatekey w;
  new_AuthenticationContext := new_AuthenticationContext w;
  acquire_token_with_client_certificate := f;
  AZURE_PUBLIC_CLOUD := AZURE_PUBLIC_CLOUD w;
  new_ResourceManagementClient := new_ResourceManagementClient w;
  resource_group_pages := resource_group_pages w
|}.

(** Whether a computation returned, its value set aside. *)
Definition returned {A} (m : M A) : exn + () :=
  match outcome m with
  | inl e => inl e
  | inr _ => inr ()
  end.

(** *** Specifications of computations

    Every event of [m] satisfies [P]; a value that [m] returns
    satisfies [Q]. *)
Definition performs_only {A} (P : event → Prop) (m : M A) : Prop :=
  Forall P (trace m).

Definition obeys {A} (P : event → Prop) (Q : A → Prop) (m : M A) : Prop :=
  performs_only P m ∧ ∀ a, outcome m = inr a → Q a.

(** A credential whose callable stays within [P]. *)
Definition tame (P : event → Prop) (cred : AdalAuthentication) : Prop :=
  ∀ u, performs_only P (adal_method cred u).

(** The events [get_automation_runas_credential] can perform itself... *)
Inductive setup_event : event → Prop :=
| setup_call : setup_event (EvCall "get_automation_runas_credential")
| setup_import m :
    m ∈ ["OpenSSL"; "msrestazure"; "adal"] → setup_event (EvImport m)
| setup_certificate : setup_event (EvGetCertificate "AzureRunAsCertificate")
| setup_load blob : setup_event (EvLoadPkcs12 blob)
| setup_dump key : setup_event (EvDumpPrivateKey key)
| setup_context url : setup_event (EvAuthenticationContext url).

(** ... the one its lambda performs ... *)
Inductive token_event : event → Prop :=
| token_acquire r c k t : token_event (EvAcquireToken r c k t).

(** ... and those of the whole module body. *)
Inductive script_event : event → Prop :=
| script_setup ev : setup_event ev → script_event ev
| script_token ev : token_event ev → script_event ev
| script_import m :
    m ∈ ["azure.mgmt.resource"; "automationassets"; "msrestazure.azure_cloud"] →
    script_event (EvImport m)
| script_connection : script_event (EvGetConnection "AzureRunAsConnection")
| script_client s b : script_event (EvResourceManagementClient s b)
| script_list : script_event EvResourceGroupsList
| script_page i : script_event (EvRequestPage i)
| script_print s : script_event (EvPrint s).

(** What happens before the listing: no token request, no listing call,
    no printed line. *)
Definition before_listing (ev : event) : Prop :=
  script_event ev
  ∧ is_acquire_token ev = false
  ∧ is_listing_call ev = false
  ∧ is_print ev = false.

(** *** Worlds in which the collaborators answer *)

(** The credential the function is expected to return: its callable is
    the token request, with the values the function has at hand. *)
Definition lazy_credential (w : World) (context : AuthenticationContext)
    (resource_url application_id pem_pkey thumbprint : string)
    : AdalAuthentication :=
  {| adal_method := λ _,
       call (EvAcquireToken resource_url application_id pem_pkey thumbprint)
            (acquire_token_with_client_certificate w context
               resource_url application_id pem_pkey thumbprint) |}.

(** The imports in the function, the certificate, its key and the
    authentication context are all obtained. *)
Definition setup_answers (w : World) (authority_full_url cert : string)
    (pks12_cert : PKCS12) (pem_pkey : string)
    (context : AuthenticationContext) : Prop :=
  Forall (λ m, import_module w m = inr ()) ["OpenSSL"; "msrestazure"; "adal"]
  ∧ get_automation_certificate w "AzureRunAsCertificate" = inr cert
  ∧ load_pkcs12 w cert = inr pks12_cert
  ∧ dump_privatekey w (get_privatekey pks12_cert) = inr pem_pkey
  ∧ new_AuthenticationContext w authority_full_url = inr context.

Definition setup_trace (authority_full_url cert : string)
    (pks12_cert : PKCS12) : list event :=
  [ EvCall "get_automation_runas_credential";
    EvImport "OpenSSL"; EvImport "msrestazure"; EvImport "adal";
    EvGetCertificate "AzureRunAsCertificate";
    EvLoadPkcs12 cert;
    EvDumpPrivateKey (get_privatekey pks12_cert);
    EvAuthenticationContext authority_full_url ].

(** The connection asset with its four fields. *)
Definition runas_connection_has (conn : gmap string string)
    (application_id thumbprint tenant_id subscription : string) : Prop :=
  conn !! "ApplicationId" = Some application_id
  ∧ conn !! "CertificateThumbprint" = Some thumbprint
  ∧ conn !! "TenantId" = Some tenant_id
  ∧ conn !! "SubscriptionId" = Some subscription.

(** The module-level imports and the connection asset are obtained, and
    the client constructor accepts its arguments. *)
Definition module_answers (w : World) (conn : gmap string string)
    (subscription : string) : Prop :=
  Forall (λ m, import_module w m = inr ())
    ["azure.mgmt.resource"; "automationassets"; "msrestazure.azure_cloud"]
  ∧ get_automation_connection w "AzureRunAsConnection" = inr conn
  ∧ forallb is_ascii (list_ascii_of_string subscription) = true
  ∧ new_ResourceManagementClient w subscription
      (resource_manager (AZURE_PUBLIC_CLOUD w)) = inr ().

Definition module_trace (w : World) (cert : string) (pks12_cert : PKCS12)
    (tenant_id subscription : string) : list event :=
  [ EvImport "azure.mgmt.resource"; EvImport "automationassets";
    EvImport "msrestazure.azure_cloud";
    EvGetConnection "AzureRunAsConnection" ]
  ++ setup_trace (active_directory (AZURE_PUBLIC_CLOUD w) +:+ "/" +:+ tenant_id)
                 cert pks12_cert
  ++ [ EvResourceManagementClient subscription
         (resource_manager (AZURE_PUBLIC_CLOUD w));
       EvResourceGroupsList ].

(** *** The propagation rule, in the words of the specification

    Only AuthError is fatal to the whole run, and it aborts the run
    before any listing: when a run is stopped by an exception, the
    credential acquisition is what failed, and no listing call has been
    made. *)
Definition authentication_failed (w : World) (e : exn) : Prop :=
  outcome (authenticate w) = inl e
  ∨ ∃ conn cred, outcome (authenticate w) = inr (conn, cred)
                 ∧ outcome (signed_session cred) = inl e.

Definition only_authentication_failure_is_fatal : Prop :=
  ∀ w e, outcome (module_body w) = inl e →
    authentication_failed w e
    ∧ Forall (λ ev, is_listing_call ev = false) (trace (module_body w)).

(** The loop of lines 64 and 65 over the pager of a subscription. *)
Definition print_groups (w : World) (cred : AdalAuthentication)
    (subscription : string) : M () :=
  iterate cred 0
    (let '(first, more) :=
       resource_group_pages w subscription
         (resource_manager (AZURE_PUBLIC_CLOUD w)) in
     first :: more)
    (λ group, print (encode_utf8 (rg_name group))).

(** *** A world to run the script in

    The public cloud's endpoints as msrestazure has them, a connection
    asset with the four fields of a RunAs service principal, and a
    subscription with two resource groups on one page. *)

Definition public_cloud : CloudEndpoints := {|
  active_directory_resource_id := "https://management.core.windows.net/";
  active_directory := "https://login.microsoftonline.com";
  resource_manager := "https://management.azure.com/"
|}.

Definition runas_fields : gmap string string :=
  <["ApplicationId" := "app-1"]>
  (<["CertificateThumbprint" := "AB12"]>
  (<["TenantId" := "tenant-1"]>
  (<["SubscriptionId" := "sub-1"]> ∅))).

Definition good_world : World := {|
  import_module := λ _, inr ();
  get_automation_connection := λ _, inr runas_fields;
  get_automation_certificate := λ _, inr "pfx-bytes";
  load_pkcs12 := λ _, inr {| get_privatekey := "key-1" |};
  dump_privatekey := λ _, inr "pem-1";
  new_AuthenticationContext := λ url, inr {| authority := url |};
  acquire_token_with_client_certificate := λ _ _ _ _ _, inr "token-1";
  AZURE_PUBLIC_CLOUD := public_cloud;
  new_ResourceManagementClient := λ _ _, inr ();
  resource_group_pages := λ _ _,
    (λ _, inr [ {| rg_name := "rg-prod" |}; {| rg_name := "rg-dev" |} ], [])
|}.

(** The same subscription when the listing request is refused. *)
Definition listing_refused : World := {|
  import_module := import_module good_world;
  get_automation_connection := get_automation_connection good_world;
  get_automation_certificate := get_automation_certificate good_world;
  load_pkcs12 := load_pkcs12 good_world;
  dump_privatekey := dump_privatekey good_world;
  new_AuthenticationContext := new_AuthenticationContext good_world;
  acquire_token_with_client_certificate :=
    acquire_token_with_client_certificate good_world;
  AZURE_PUBLIC_CLOUD := public_cloud;
  new_ResourceManagementClient := new_ResourceManagementClient good_world;
  resource_group_pages := λ _ _, (λ _, inl (Exception "CloudError"), [])
|}.

(** The same world when the token endpoint rejects the certificate. *)
Definition token_refused : World :=
  with_token_endpoint good_world (λ _ _ _ _ _, inl (Exception "AdalError")).

(** *** Vocabulary for the edge cases *)

(** The fields [get_automation_runas_credential] reads, in its order. *)
Definition credential_fields : list string :=
  ["ApplicationId"; "CertificateThumbprint"; "TenantId"].

(** The first of them that a connection lacks. *)
Definition first_missing (conn : gmap string string) : option string :=
  List.find (λ key, bool_decide (conn !! key = None)) credential_fields.

(** The imports in the function, the certificate and its key are
    obtained (nothing is said of the authentication context). *)
Definition certificate_answers (w : World) (cert : string)
    (pks12_cert : PKCS12) (pem_pkey : string) : Prop :=
  Forall (λ m, import_module w m = inr ()) ["OpenSSL"; "msrestazure"; "adal"]
  ∧ get_automation_certificate w "AzureRunAsCertificate" = inr cert
  ∧ load_pkcs12 w cert = inr pks12_cert
  ∧ dump_privatekey w (get_privatekey pks12_cert) = inr pem_pkey.

Definition certificate_trace (cert : string) (pks12_cert : PKCS12)
    : list event :=
  [ EvCall "get_automation_runas_credential";
    EvImport "OpenSSL"; EvImport "msrestazure"; EvImport "adal";
    EvGetCertificate "AzureRunAsCertificate";
    EvLoadPkcs12 cert;
    EvDumpPrivateKey (get_privatekey pks12_cert) ].

(** The module-level imports and the connection asset are obtained. *)
Definition prelude_answers (w : World) (conn : gmap string string) : Prop :=
  Forall (λ m, import_module w m = inr ())
    ["azure.mgmt.resource"; "automationassets"; "msrestazure.azure_cloud"]
  ∧ get_automation_connection w "AzureRunAsConnection" = inr conn.

Definition prelude_trace : list event :=
  [ EvImport "azure.mgmt.resource"; EvImport "automationassets";
    EvImport "msrestazure.azure_cloud";
    EvGetConnection "AzureRunAsConnection" ].

(** The pages of a subscription, as a list. *)
Definition pages_of (w : World) (subscription : string) : list page :=
  let '(first, more) :=
    resource_group_pages w subscription
      (resource_manager (AZURE_PUBLIC_CLOUD w)) in
  first :: more.

(** The line lines 64 and 65 print for a group. *)
Definition printed_line (group : ResourceGroup) : event :=
  EvPrint (encode_utf8 (rg_name group)).

(** The events of a loop in which every page answers: for each page a
    token request, the page request, and one printed line per group. *)
Fixpoint listing_trace (token_request : event) (i : nat)
    (answers : list (list ResourceGroup)) : list event :=
  match answers with
  | [] => []
  | groups :: rest =>
    token_request :: EvRequestPage i :: map printed_line groups
    ++ listing_trace token_request (S i) rest
  end.

(** The lines a trace prints, in order. *)
Definition printed (t : list event) : list string :=
  omap (λ ev, match ev with EvPrint s => Some s | _ => None end) t.

Definition is_page_request (ev : event) : bool :=
  match ev with
  | EvRequestPage _ => true
  | _ => false
  end.

(** No page request without a token request right before it;
    [signed] tells whether the event just before was a token request. *)
Fixpoint well_signed (signed : bool) (t : list event) : bool :=
  match t with
  | [] => true
  | ev :: rest =>
    (if is_page_request ev then signed else true)
    && well_signed (is_acquire_token ev) rest
  end.

(** A token request made for the management resource, on behalf of the
    given application, with the given certificate thumbprint. *)
Definition token_request_for (resource_url application_id thumbprint : string)
    (ev : event) : Prop :=
  match ev with
  | EvAcquireToken r c _ t =>
    r = resource_url ∧ c = application_id ∧ t = thumbprint
  | _ => True
  end.

(** How often a kind of event occurs in a trace. *)
Definition occurrences (kind : event → bool) (t : list event) : nat :=
  length (List.filter kind t).

Definition is_asset_read (ev : event) : bool :=
  match ev with
  | EvGetConnection _ | EvGetCertificate _ => true
  | _ => false
  end.

Definition is_new_context (ev : event) : bool :=
  match ev with
  | EvAuthenticationContext _ => true
  | _ => false
  end.

Definition is_client_init (ev : event) : bool :=
  match ev with
  | EvResourceManagementClient _ _ => true
  | _ => false
  end.

(** What happens before the client is constructed. *)
Definition before_client (ev : event) : Prop :=
  before_listing ev ∧ is_client_init ev = false.

(** A token request made for the management resource of the cloud, on
    behalf of the application of the connection and with its
    certificate thumbprint. *)
Definition token_request_of (w : World) (conn : gmap string string)
    (ev : event) : Prop :=
  match ev with
  | EvAcquireToken r c _ t =>
    r = active_directory_resource_id (AZURE_PUBLIC_CLOUD w)
    ∧ conn !! "ApplicationId" = Some c
    ∧ conn !! "CertificateThumbprint" = Some t
  | _ => True
  end.

(** The pages that the pager of a client goes through. *)
Definition client_pages (w : World) (client : ResourceManagementClient)
    : list page :=
  let '(first, more) :=
    resource_group_pages w (rc_subscription_id client) (rc_base_url client) in
  first :: more.

(** A line that is the encoded name of a group with which one of the
    pages answers the given token. *)
Definition name_on_page (pages : list page) (token line : string) : Prop :=
  ∃ (p : page) groups group,
    p ∈ pages ∧ p token = inr groups ∧ group ∈ groups
    ∧ line = encode_utf8 (rg_name group).

(** A line from the listing of the run itself: the name of a group on a
    page of the subscription that the retrieved connection names, at the
    cloud's resource manager, answered for the token granted to the
    credential built from that connection. *)
Definition listed_name (w : World) (line : string) : Prop :=
  ∃ conn app thumb tenant sub cert p12 pem ctx token,
    get_automation_connection w "AzureRunAsConnection" = inr conn
    ∧ runas_connection_has conn app thumb tenant sub
    ∧ setup_answers w
        (active_directory (AZURE_PUBLIC_CLOUD w) +:+ "/" +:+ tenant)
        cert p12 pem ctx
    ∧ acquire_token_with_client_certificate w ctx
        (active_directory_resource_id (AZURE_PUBLIC_CLOUD w)) app pem thumb
      = inr token
    ∧ name_on_page (pages_of w sub) token line.

Definition is_list_call (ev : event) : bool :=
  match ev with
  | EvResourceGroupsList => true
  | _ => false
  end.

Definition is_connection_read (ev : event) : bool :=
  match ev with
  | EvGetConnection _ => true
  | _ => false
  end.

Definition is_certificate_read (ev : event) : bool :=
  match ev with
  | EvGetCertificate _ => true
  | _ => false
  end.

(** *** More worlds *)

(** The connection asset without its tenant. *)
Definition fields_without_tenant : gmap string string :=
  delete "TenantId" runas_fields.

(** The connection asset without its subscription. *)
Definition fields_without_subscription : gmap string string :=
  delete "SubscriptionId" runas_fields.

(** The connection asset with a subscription that is not ASCII. *)
Definition fields_with_odd_subscription : gmap string string :=
  <["SubscriptionId" := String "233"%char "t"]> runas_fields.

(** [good_world] with another connection asset. *)
Definition with_connection (conn : gmap string string) : World := {|
  import_module := import_module good_world;
  get_automation_connection := λ _, inr conn;
  get_automation_certificate := get_automation_certificate good_world;
  load_pkcs12 := load_pkcs12 good_world;
  dump_privatekey := dump_privatekey good_world;
  new_AuthenticationContext := new_AuthenticationContext good_world;
  acquire_token_with_client_certificate :=
    acquire_token_with_client_certificate good_world;
  AZURE_PUBLIC_CLOUD := public_cloud;
  new_ResourceManagementClient := new_ResourceManagementClient good_world;
  resource_group_pages := resource_group_pages good_world
|}.

(** [good_world] with other pages. *)
Definition with_pages (first : page) (more : list page) : World := {|
  import_module := import_module good_world;
  get_automation_connection := get_automation_connection good_world;
  get_automation_certificate := get_automation_certificate good_world;
  load_pkcs12 := load_pkcs12 good_world;
  dump_privatekey := dump_privatekey good_world;
  new_AuthenticationContext := new_AuthenticationContext good_world;
  acquire_token_with_client_certificate :=
    acquire_token_with_client_certificate good_world;
  AZURE_PUBLIC_CLOUD := public_cloud;
  new_ResourceManagementClient := new_ResourceManagementClient good_world;
  resource_group_pages := λ _ _, (first, more)
|}.

Definition page_one : list ResourceGroup :=
  [ {| rg_name := "rg-prod" |}; {| rg_name := "rg-dev" |} ].
Definition page_two : list ResourceGroup := [ {| rg_name := "rg-test" |} ].

(** Two pages that answer. *)
Definition two_pages : World :=
  with_pages (λ _, inr page_one) [λ _, inr page_two].

(** Two pages, the second refused. *)
Definition second_page_refused : World :=
  with_pages (λ _, inr page_one) [λ _, inl (Exception "CloudError")].

End Runbook.

(* ===================================================================== *)
(** ** Properties                                                         *)
(* ===================================================================== *)

Import Source Runbook.

(** *** The text *)

(** What [check_blocks] does with one more line. *)
Lemma check_blocks_header stack h l rest :
  hd 0 stack = ll_indent h →
  ll_indent l ≤ ll_indent h →
  check_blocks stack (Some h) (l :: rest) = inl (ExpectedIndentedBlock (ll_line l)).
Proof.
  intros Hh Hle. simpl. rewrite Hh.
  destruct (Nat.ltb_spec (ll_indent h) (ll_indent l)) as [Hlt|_]; [lia|done].
Qed.

Lemma unindent_top col stack stack' :
  unindent col stack = Some stack' → hd 0 stack' = col.
Proof.
  induction stack as [|top below IH]; simpl.
  - destruct (Nat.eqb_spec col 0); [|done]. intros [= <-]. done.
  - destruct (Nat.eqb_spec col top) as [->|_].
    + intros [= <-]. done.
    + destruct (top <? col); [done|]. apply IH.
Qed.

(** A header with nothing under it is refused, wherever it stands: any
    list of logical lines with an empty suite fails the block check. *)
Lemma empty_suite_rejected ls : ∀ stack h,
  empty_suites ls ≠ [] →
  ∃ e, check_blocks stack h ls = inl e.
Proof.
  induction ls as [|l rest IH]; intros stack h Hne; [done|].
  simpl in Hne. simpl check_blocks.
  set (next := if ll_colon l then Some l else None).
  assert (Hrest : ∀ stack', hd 0 stack' = ll_indent l →
            ∃ e, check_blocks stack' next rest = inl e).
  { intros stack' Htop. subst next.
    destruct (ll_colon l) eqn:Hcolon.
    - destruct rest as [|l' rest'].
      + simpl. eauto.
      + destruct (Nat.ltb_spec (ll_indent l) (ll_indent l')) as [Hlt|Hge].
        * by apply IH.
        * rewrite check_blocks_header; [eauto|done|lia].
    - by apply IH. }
  destruct h as [h|].
  - destruct (hd 0 stack <? ll_indent l); [|eauto]. apply Hrest. done.
  - destruct (hd 0 stack <? ll_indent l); [eauto|].
    destruct (unindent (ll_indent l) stack) as [stack'|] eqn:Hun; [|eauto].
    apply Hrest. by eapply unindent_top.
Qed.

(** A text that compiles has no empty suite. *)
Lemma compile_no_empty_suite src lls :
  compile src = inr lls → empty_suites lls = [].
Proof.
  unfold compile. destruct (logical_lines src) as [e|lls0]; [done|].
  destruct (check_blocks [] None lls0) as [e|[]] eqn:Hchk; [done|].
  intros [= <-]. destruct (empty_suites lls0) eqn:Hes; [done|].
  destruct (empty_suite_rejected lls0 [] None) as [e He].
  - rewrite Hes. done.
  - congruence.
Qed.


Lemma source_empty_suites :
  ∃ lls, logical_lines source = inr lls ∧
    map (λ l, (ll_line l, def_name l, def_params l)) (empty_suites lls) = stubs.
Proof. eexists. split; [vm_compute; reflexivity|]. vm_compute. reflexivity. Qed.

Lemma source_compile : compile source = inl (ExpectedIndentedBlock 43).
Proof. vm_compute. reflexivity. Qed.

Lemma run_program_fails w : run_program w = inl (ExpectedIndentedBlock 43).
Proof. unfold run_program. rewrite source_compile. done. Qed.

Lemma run_trace_nil w : run_trace w = [].
Proof. unfold run_trace. rewrite run_program_fails. done. Qed.

(** C2: the file is not valid Python.  The [def] statements at lines 40,
    43 and 46 (get_current_date, test_schedule_entry and
    assert_resource_power_state) are headers under which only comment
    and blank lines stand, so the next logical line is not indented and
    the parser, in Python 2 as in Python 3, reports that it expected an
    indented block, at line 43; no text with such a header compiles.
    Running the file in any world therefore stops at compilation: no
    statement is executed and no event occurs, the credential
    acquisition and the listing included. *)
Theorem source_is_not_valid_python :
  (∃ lls, logical_lines source = inr lls ∧
     map (λ l, (ll_line l, def_name l, def_params l)) (empty_suites lls) = stubs)
  ∧ (∀ src lls, compile src = inr lls → empty_suites lls = [])
  ∧ forallb blank_or_comment (take 2 (drop 40 source)) = true
  ∧ forallb blank_or_comment (take 2 (drop 43 source)) = true
  ∧ forallb blank_or_comment (take 3 (drop 46 source)) = true
  ∧ compile source = inl (ExpectedIndentedBlock 43)
  ∧ ∀ w, run_program w = inl (ExpectedIndentedBlock 43) ∧ run_trace w = [].
Proof.
  split; [apply source_empty_suites|].
  split; [apply compile_no_empty_suite|].
  do 4 (split; [vm_compute; reflexivity|]).
  intros w. split; [apply run_program_fails|apply run_trace_nil].
Qed.

(** *** Exceptions and traces

    An exception ends a computation where it is raised; a value is
    handed to the rest. *)

Lemma bind_raised {A B} (m : M A) (k : A → M B) e :
  outcome m = inl e → m ≫= k = (trace m, inl e).
Proof. destruct m as [t [e'|a]]; simpl; intros [= ->]; done. Qed.

Lemma bind_returned {A B} (m : M A) (k : A → M B) a :
  outcome m = inr a → m ≫= k = (trace m ++ trace (k a), outcome (k a)).
Proof.
  destruct m as [t [e'|a']]; simpl; intros [= ->].
  unfold mbind, M_bind. destruct (k a). done.
Qed.

Lemma bind_assoc {A B C} (m : M A) (k : A → M B) (h : B → M C) :
  (m ≫= k) ≫= h = m ≫= (λ a, k a ≫= h).
Proof.
  destruct m as [t [e|a]]; [done|].
  unfold mbind, M_bind. destruct (k a) as [t1 [e|b]]; [done|].
  destruct (h b) as [t2 r]. by rewrite app_assoc.
Qed.

Lemma ret_bind {A B} (a : A) (k : A → M B) : mret a ≫= k = k a.
Proof. unfold mbind, M_bind, mret, M_ret. by destruct (k a). Qed.

Lemma bind_ext {A B} (m : M A) (k k' : A → M B) :
  (∀ a, k a = k' a) → m ≫= k = m ≫= k'.
Proof.
  intros Hk. destruct m as [t [e|a]]; [done|].
  unfold mbind, M_bind. by rewrite Hk.
Qed.

(** The rules of the logic of [obeys]. *)
Section Logic.
Context (P : event → Prop).

Lemma obeys_ret {A} (Q : A → Prop) a : Q a → obeys P Q (mret a).
Proof. intros HQ. split; [constructor|]. by intros ? [= <-]. Qed.

Lemma obeys_raise {A} (Q : A → Prop) e : obeys P Q (raise e).
Proof. split; [constructor|done]. Qed.

Lemma obeys_call {A} (Q : A → Prop) ev (r : exn + A) :
  P ev → (∀ a, r = inr a → Q a) → obeys P Q (call ev r).
Proof. intros Hp HQ. split; [by repeat constructor|]. exact HQ. Qed.

Lemma obeys_bind {A B} (R : A → Prop) (Q : B → Prop) (m : M A) (k : A → M B) :
  obeys P R m → (∀ a, R a → obeys P Q (k a)) → obeys P Q (m ≫= k).
Proof.
  intros [Hm HR] Hk. destruct (outcome m) as [e|a] eqn:Ho.
  - rewrite (bind_raised _ _ _ Ho). split; [done|done].
  - rewrite (bind_returned _ _ _ Ho).
    destruct (Hk a (HR a eq_refl)) as [Hka HQ].
    split; [by apply Forall_app|done].
Qed.

Lemma obeys_getitem (Q : string → Prop) d key :
  (∀ v, d !! key = Some v → Q v) → obeys P Q (getitem d key).
Proof.
  intros HQ. unfold getitem. destruct (d !! key) as [v|].
  - apply obeys_ret; auto.
  - apply obeys_raise.
Qed.

Lemma obeys_py_str u : obeys P (λ s, s = u) (py_str u).
Proof.
  unfold py_str. destruct (forallb _ _).
  - by apply obeys_ret.
  - apply obeys_raise.
Qed.

Lemma obeys_for_each {A} (xs : list A) (body : A → M ()) :
  (∀ x, obeys P (λ _, True) (body x)) → obeys P (λ _, True) (for_each xs body).
Proof.
  intros Hbody. induction xs as [|x xs IH]; cbn [for_each].
  - by apply obeys_ret.
  - eapply obeys_bind; [apply Hbody|]. intros _ _. exact IH.
Qed.

Lemma obeys_iterate cred body pages : ∀ i,
  tame P cred →
  (∀ x, obeys P (λ _, True) (body x)) →
  (∀ i, P (EvRequestPage i)) →
  obeys P (λ _, True) (iterate cred i pages body).
Proof.
  intros i Hcred Hbody Hpi. revert i.
  induction pages as [|pg rest IH]; intros i; cbn [iterate].
  - by apply obeys_ret.
  - eapply (obeys_bind (λ _, True)).
    { split; [apply Hcred|done]. }
    intros token _. eapply (obeys_bind (A:=list ResourceGroup) (λ _, True)).
    { by apply obeys_call. }
    intros groups _. eapply (obeys_bind (λ _, True)).
    { by apply obeys_for_each. }
    intros _ _. apply IH.
Qed.

End Logic.

Lemma performs_only_impl {A} (P P' : event → Prop) (m : M A) :
  (∀ ev, P ev → P' ev) → performs_only P m → performs_only P' m.
Proof. intros Himp Hm. eapply Forall_impl; [exact Hm|exact Himp]. Qed.

Lemma obeys_weaken {A} (P P' : event → Prop) (Q Q' : A → Prop) (m : M A) :
  (∀ ev, P ev → P' ev) → (∀ a, Q a → Q' a) → obeys P Q m → obeys P' Q' m.
Proof.
  intros HP HQ [Hm Ha]. split; [by eapply performs_only_impl|]. eauto.
Qed.

(** *** The footprint of the script *)

Local Ltac member := repeat first [apply list_elem_of_here | apply list_elem_of_further].

(** One statement of a straight-line body. *)
Local Ltac walk ev_ok :=
  lazymatch goal with
  | |- obeys _ _ (call _ _ ≫= _) =>
    eapply (obeys_bind _ (λ _, True));
    [apply obeys_call; [ev_ok|done] | intros ? _]
  | |- obeys _ _ (getitem _ _ ≫= _) =>
    eapply (obeys_bind _ (λ _, True)); [by apply obeys_getitem | intros ? _]
  | |- obeys _ _ (py_str _ ≫= _) =>
    eapply obeys_bind; [apply obeys_py_str | intros ? ->]
  end.

Lemma credential_footprint w conn resource_url authority_url :
  obeys setup_event (tame token_event)
    (get_automation_runas_credential w conn resource_url authority_url).
Proof.
  unfold get_automation_runas_credential, import.
  repeat walk ltac:(constructor; member).
  apply obeys_ret. intros u. repeat constructor.
Qed.

Lemma authenticate_footprint w :
  obeys before_listing (λ r, tame token_event (snd r)) (authenticate w).
Proof.
  unfold authenticate, import.
  repeat walk ltac:(split;
    [first [apply script_connection | apply script_import; member]|done]).
  eapply obeys_bind.
  { eapply obeys_weaken; [| |apply credential_footprint].
    - intros ev Hev. split; [by constructor|]. by destruct Hev.
    - intros c Hc. exact Hc. }
  intros cred Hcred. by apply obeys_ret.
Qed.

Lemma initialize_client_footprint w conn cred :
  obeys before_listing
        (λ c, rc_credentials c = cred) (initialize_client w conn cred).
Proof.
  unfold initialize_client.
  repeat walk ltac:(split; [apply script_client|done]).
  by apply obeys_ret.
Qed.

Lemma list_and_print_footprint w client :
  tame token_event (rc_credentials client) →
  obeys script_event (λ _, True) (list_and_print w client).
Proof.
  intros Hcred. unfold list_and_print, resource_groups_list.
  destruct (resource_group_pages w _ _) as [first more].
  eapply (obeys_bind _ (λ g, pg_credentials g = rc_credentials client)).
  { apply obeys_call; [apply script_list|]. by intros ? [= <-]. }
  intros groups Hg. apply obeys_iterate.
  - rewrite Hg. intros u. eapply performs_only_impl; [|apply Hcred].
    intros ev. apply script_token.
  - intros x. apply obeys_call; [apply script_print|done].
  - apply script_page.
Qed.

(** The module body is its three sections, one after the other. *)
Lemma module_body_phases w :
  module_body w =
    authenticate w ≫= (λ r,
    initialize_client w (fst r) (snd r) ≫= list_and_print w).
Proof.
  unfold module_body, authenticate, initialize_client, list_and_print.
  repeat first
    [ rewrite bind_assoc | rewrite ret_bind
    | apply bind_ext; intros ? ]; cbn [fst snd].
  reflexivity.
Qed.

Lemma module_body_footprint w : performs_only script_event (module_body w).
Proof.
  rewrite module_body_phases.
  eapply (obeys_bind script_event (λ r, tame token_event (snd r)) (λ _, True)).
  { eapply obeys_weaken; [| |apply authenticate_footprint]; [by intros ? []|done]. }
  intros [conn cred] Hcred.
  eapply (obeys_bind script_event (λ c, rc_credentials c = cred)).
  { eapply obeys_weaken; [| |apply initialize_client_footprint]; [by intros ? []|done]. }
  intros client <-. by apply list_and_print_footprint.
Qed.

Lemma script_event_implemented ev : script_event ev → implemented ev = true.
Proof.
  destruct 1 as [ev [|m Hm| | | |]|ev []|m Hm| | | | |]; try reflexivity;
    repeat (apply elem_of_cons in Hm as [->|Hm]; [reflexivity|]);
    by apply elem_of_nil in Hm.
Qed.

Lemma script_event_not_stub ev : script_event ev → stub_call ev = false.
Proof. destruct 1 as [ev []|ev []| | | | | |]; reflexivity. Qed.

Lemma implemented_functionality ev :
  implemented ev = true →
  functionality_of ev = CredentialAcquisition
  ∨ functionality_of ev = ResourceGroupListing.
Proof. unfold implemented. destruct (functionality_of ev); auto; discriminate. Qed.

(** The declarations of the file and the text after its last statement. *)
Lemma source_declarations :
  ∃ lls, logical_lines source = inr lls
    ∧ omap def_name lls =
        ["get_automation_runas_credential"; "get_current_date";
         "test_schedule_entry"; "assert_resource_power_state"]
    ∧ map (λ l, (ll_line l, def_name l, def_params l)) (empty_suites lls) = stubs
    ∧ list_max (map ll_line lls) = 65.
Proof. eexists. split; [vm_compute; reflexivity|]. vm_compute. done. Qed.

(** *** What the function returns *)

Lemma call_bind {A B} ev (a : A) (k : A → M B) :
  call ev (inr a) ≫= k = (ev :: trace (k a), outcome (k a)).
Proof. unfold call, mbind, M_bind. by destruct (k a). Qed.

Lemma getitem_bind {B} (d : gmap string string) key v (k : string → M B) :
  d !! key = Some v → getitem d key ≫= k = k v.
Proof. intros Hv. unfold getitem. rewrite Hv. apply ret_bind. Qed.

Lemma credential_returns w conn resource_url authority_url
    app thumb tenant cert p12 pem ctx :
  conn !! "ApplicationId" = Some app →
  conn !! "CertificateThumbprint" = Some thumb →
  conn !! "TenantId" = Some tenant →
  setup_answers w (authority_url +:+ "/" +:+ tenant) cert p12 pem ctx →
  get_automation_runas_credential w conn resource_url authority_url
  = (setup_trace (authority_url +:+ "/" +:+ tenant) cert p12,
     inr (lazy_credential w ctx resource_url app pem thumb)).
Proof.
  intros Happ Hthumb Htenant (Himp & Hcert & Hload & Hdump & Hctx).
  apply Forall_cons in Himp as [Hi1 Himp].
  apply Forall_cons in Himp as [Hi2 Himp].
  apply Forall_cons in Himp as [Hi3 _].
  unfold get_automation_runas_credential, import.
  rewrite Hi1, Hi2, Hi3, Hcert.
  rewrite !call_bind. cbn [trace outcome fst snd].
  rewrite Hload, call_bind. cbn [trace outcome fst snd].
  rewrite Hdump, call_bind. cbn [trace outcome fst snd].
  rewrite (getitem_bind _ _ _ _ Happ), (getitem_bind _ _ _ _ Hthumb),
    (getitem_bind _ _ _ _ Htenant).
  rewrite Hctx, call_bind. reflexivity.
Qed.

(** Nothing the function does depends on the token endpoint. *)
Lemma credential_ignores_token_endpoint w f conn resource_url authority_url :
  trace (get_automation_runas_credential (with_token_endpoint w f)
           conn resource_url authority_url)
  = trace (get_automation_runas_credential w conn resource_url authority_url)
  ∧ returned (get_automation_runas_credential (with_token_endpoint w f)
                conn resource_url authority_url)
    = returned (get_automation_runas_credential w conn resource_url authority_url).
Proof.
  unfold get_automation_runas_credential, import, with_token_endpoint, getitem.
  cbn [import_module get_automation_certificate load_pkcs12 dump_privatekey
       new_AuthenticationContext].
  destruct (import_module w "OpenSSL") as [e|[]]; [done|].
  destruct (import_module w "msrestazure") as [e|[]]; [done|].
  destruct (import_module w "adal") as [e|[]]; [done|].
  destruct (get_automation_certificate w _) as [e|cert]; [done|].
  rewrite !call_bind. cbn [trace outcome fst snd].
  destruct (load_pkcs12 w cert) as [e|p12]; [done|].
  rewrite !call_bind. cbn [trace outcome fst snd].
  destruct (dump_privatekey w _) as [e|pem]; [done|].
  rewrite !call_bind. cbn [trace outcome fst snd].
  destruct (conn !! "ApplicationId") as [app|]; [|done].
  destruct (conn !! "CertificateThumbprint") as [thumb|]; [|done].
  destruct (conn !! "TenantId") as [tenant|]; [|done].
  rewrite !ret_bind.
  destruct (new_AuthenticationContext w _) as [e|ctx]; done.
Qed.

(** When the function returns, every step before the return had
    answered, and the value is the lazy credential. *)
Lemma credential_value w conn resource_url authority_url cred :
  outcome (get_automation_runas_credential w conn resource_url authority_url)
    = inr cred →
  ∃ app thumb tenant cert p12 pem ctx,
    conn !! "ApplicationId" = Some app
    ∧ conn !! "CertificateThumbprint" = Some thumb
    ∧ conn !! "TenantId" = Some tenant
    ∧ setup_answers w (authority_url +:+ "/" +:+ tenant) cert p12 pem ctx
    ∧ cred = lazy_credential w ctx resource_url app pem thumb.
Proof.
  unfold get_automation_runas_credential, import, getitem.
  destruct (import_module w "OpenSSL") as [e|[]] eqn:Hi1; [done|].
  destruct (import_module w "msrestazure") as [e|[]] eqn:Hi2; [done|].
  destruct (import_module w "adal") as [e|[]] eqn:Hi3; [done|].
  destruct (get_automation_certificate w _) as [e|cert] eqn:Hcert; [done|].
  rewrite !call_bind. cbn [trace outcome fst snd].
  destruct (load_pkcs12 w cert) as [e|p12] eqn:Hload; [done|].
  rewrite !call_bind. cbn [trace outcome fst snd].
  destruct (dump_privatekey w _) as [e|pem] eqn:Hdump; [done|].
  rewrite !call_bind. cbn [trace outcome fst snd].
  destruct (conn !! "ApplicationId") as [app|]; [|done].
  destruct (conn !! "CertificateThumbprint") as [thumb|]; [|done].
  destruct (conn !! "TenantId") as [tenant|]; [|done].
  rewrite !ret_bind.
  destruct (new_AuthenticationContext w _) as [e|ctx] eqn:Hctx; [done|].
  rewrite call_bind. cbn. intros [= <-].
  exists app, thumb, tenant, cert, p12, pem, ctx.
  repeat split; try done. by repeat constructor.
Qed.

Lemma setup_event_not_acquire ev : setup_event ev → is_acquire_token ev = false.
Proof. by destruct 1. Qed.

(** C10: get_automation_runas_credential requests no token.  For a
    connection with the fields ApplicationId, CertificateThumbprint and
    TenantId: no event of the call is a token request; the events of the
    call, and whether it returns or raises, are the same whatever the
    token endpoint would answer; a returned value is the
    AdalAuthentication whose zero-argument callable is the call of
    acquire_token_with_client_certificate on the context, resource URL,
    application id, PEM key and thumbprint; the function does return it
    whenever its imports, the certificate, the key and the context are
    obtained; and the first use of the credential yields exactly what the
    token endpoint answers, an exception included. *)
Theorem credential_defers_token_acquisition
    w conn resource_url authority_url app thumb tenant :
  conn !! "ApplicationId" = Some app →
  conn !! "CertificateThumbprint" = Some thumb →
  conn !! "TenantId" = Some tenant →
  let run := get_automation_runas_credential w conn resource_url authority_url in
  let url := authority_url +:+ "/" +:+ tenant in
  Forall (λ ev, is_acquire_token ev = false) (trace run)
  ∧ (∀ f,
       let run' := get_automation_runas_credential (with_token_endpoint w f)
                     conn resource_url authority_url in
       trace run' = trace run ∧ returned run' = returned run)
  ∧ (∀ cred, outcome run = inr cred →
       ∃ cert p12 pem ctx,
         setup_answers w url cert p12 pem ctx
         ∧ cred = lazy_credential w ctx resource_url app pem thumb)
  ∧ (∀ cert p12 pem ctx,
       setup_answers w url cert p12 pem ctx →
       run = (setup_trace url cert p12,
              inr (lazy_credential w ctx resource_url app pem thumb))
       ∧ signed_session (lazy_credential w ctx resource_url app pem thumb)
         = ([EvAcquireToken resource_url app pem thumb],
            acquire_token_with_client_certificate w ctx
              resource_url app pem thumb)).
Proof.
  intros Happ Hthumb Htenant run url. subst run url.
  split.
  { eapply Forall_impl; [apply credential_footprint|].
    apply setup_event_not_acquire. }
  split; [intros f; apply credential_ignores_token_endpoint|].
  split.
  { intros cred Hcred.
    destruct (credential_value _ _ _ _ _ Hcred)
      as (app' & thumb' & tenant' & cert & p12 & pem & ctx
          & Happ' & Hthumb' & Htenant' & Hsetup & ->).
    rewrite Happ in Happ'. rewrite Hthumb in Hthumb'. rewrite Htenant in Htenant'.
    injection Happ' as <-. injection Hthumb' as <-. injection Htenant' as <-.
    eauto 10. }
  intros cert p12 pem ctx Hsetup. split; [|reflexivity].
  by apply credential_returns.
Qed.

(** The function in the world whose token endpoint rejects the
    certificate: it returns all the same. *)
Lemma credential_defers_token_acquisition_witness :
  runas_fields !! "ApplicationId" = Some "app-1"
  ∧ runas_fields !! "CertificateThumbprint" = Some "AB12"
  ∧ runas_fields !! "TenantId" = Some "tenant-1"
  ∧ setup_answers token_refused "https://login.microsoftonline.com/tenant-1"
      "pfx-bytes" {| get_privatekey := "key-1" |} "pem-1"
      {| authority := "https://login.microsoftonline.com/tenant-1" |}
  ∧ returned (get_automation_runas_credential token_refused runas_fields
                "https://management.core.windows.net/"
                "https://login.microsoftonline.com") = inr ()
  ∧ outcome (signed_session
      (lazy_credential token_refused
         {| authority := "https://login.microsoftonline.com/tenant-1" |}
         "https://management.core.windows.net/" "app-1" "pem-1" "AB12"))
    = inl (Exception "AdalError").
Proof.
  assert (Happ : runas_fields !! "ApplicationId" = Some "app-1")
    by (vm_compute; reflexivity).
  assert (Hthumb : runas_fields !! "CertificateThumbprint" = Some "AB12")
    by (vm_compute; reflexivity).
  assert (Htenant : runas_fields !! "TenantId" = Some "tenant-1")
    by (vm_compute; reflexivity).
  assert (Hsetup : setup_answers token_refused
            "https://login.microsoftonline.com/tenant-1"
            "pfx-bytes" {| get_privatekey := "key-1" |} "pem-1"
            {| authority := "https://login.microsoftonline.com/tenant-1" |}).
  { repeat split; repeat constructor. }
  destruct (credential_defers_token_acquisition token_refused runas_fields
              "https://management.core.windows.net/"
              "https://login.microsoftonline.com"
              "app-1" "AB12" "tenant-1" Happ Hthumb Htenant)
    as (_ & _ & _ & Hret).
  destruct (Hret _ _ _ _ Hsetup) as [Hrun Huse].
  do 4 (split; [assumption|]). split.
  - unfold returned. rewrite Hrun. reflexivity.
  - rewrite Huse. reflexivity.
Defined.

(** *** Exceptions in the module body *)

Lemma module_body_authenticate_raises w e :
  outcome (authenticate w) = inl e →
  module_body w = (trace (authenticate w), inl e).
Proof. intros He. rewrite module_body_phases. by apply bind_raised. Qed.

Lemma module_body_client_raises w conn cred e :
  outcome (authenticate w) = inr (conn, cred) →
  outcome (initialize_client w conn cred) = inl e →
  module_body w
  = (trace (authenticate w) ++ trace (initialize_client w conn cred), inl e).
Proof.
  intros Ha He. rewrite module_body_phases, (bind_returned _ _ _ Ha); cbn [fst snd]; rewrite (bind_raised _ _ _ He); reflexivity.
Qed.

Lemma module_body_listing w conn cred client :
  outcome (authenticate w) = inr (conn, cred) →
  outcome (initialize_client w conn cred) = inr client →
  module_body w
  = (trace (authenticate w) ++ trace (initialize_client w conn cred)
       ++ trace (list_and_print w client),
     outcome (list_and_print w client)).
Proof.
  intros Ha Hc. rewrite module_body_phases, (bind_returned _ _ _ Ha).
  cbn [fst snd]. rewrite (bind_returned _ _ _ Hc). reflexivity.
Qed.

(** The listing starts with the call of [resource_groups.list()]. *)
Lemma list_and_print_starts w client :
  ∃ t, trace (list_and_print w client) = EvResourceGroupsList :: t.
Proof.
  unfold list_and_print, resource_groups_list.
  destruct (resource_group_pages w _ _) as [first more].
  rewrite call_bind. eauto.
Qed.

(** A refused token or a refused page ends the loop on the spot. *)
Lemma iterate_token_raises cred i p rest body e :
  outcome (signed_session cred) = inl e →
  iterate cred i (p :: rest) body = (trace (signed_session cred), inl e).
Proof. intros He. cbn [iterate]. by apply bind_raised. Qed.

Lemma iterate_page_raises cred i (p : page) rest body token e :
  outcome (signed_session cred) = inr token →
  p token = inl e →
  iterate cred i (p :: rest) body
  = (trace (signed_session cred) ++ [EvRequestPage i], inl e).
Proof.
  intros Ht He. cbn [iterate]. rewrite (bind_returned _ _ _ Ht), He.
  reflexivity.
Qed.

(** C3, as the code has it: every exception is fatal.  The script has no
    handler, so the exception of the first failing step is the outcome
    of the run, whichever of the three sections it is raised in
    (authentication, client construction, listing and printing), and a
    run that ends with an exception was stopped by one of them.  A
    failure in the first two sections stops the run before any listing
    call, token request or printed line.  The token is requested only
    in the third section, which starts with the call of
    resource_groups.list(); there, a refused token or a refused page
    ends the loop: no later page is requested and no group of it is
    printed. *)
Theorem every_exception_aborts_the_run w :
  (∀ e, outcome (authenticate w) = inl e →
     module_body w = (trace (authenticate w), inl e))
  ∧ (∀ conn cred e,
       outcome (authenticate w) = inr (conn, cred) →
       outcome (initialize_client w conn cred) = inl e →
       module_body w
       = (trace (authenticate w) ++ trace (initialize_client w conn cred),
          inl e))
  ∧ (∀ conn cred client,
       outcome (authenticate w) = inr (conn, cred) →
       outcome (initialize_client w conn cred) = inr client →
       module_body w
       = (trace (authenticate w) ++ trace (initialize_client w conn cred)
            ++ trace (list_and_print w client),
          outcome (list_and_print w client)))
  ∧ (∀ e, outcome (module_body w) = inl e →
       outcome (authenticate w) = inl e
       ∨ ∃ conn cred, outcome (authenticate w) = inr (conn, cred)
           ∧ (outcome (initialize_client w conn cred) = inl e
              ∨ ∃ client, outcome (initialize_client w conn cred) = inr client
                  ∧ outcome (list_and_print w client) = inl e))
  ∧ Forall before_listing (trace (authenticate w))
  ∧ (∀ conn cred, Forall before_listing (trace (initialize_client w conn cred)))
  ∧ (∀ client, ∃ t, trace (list_and_print w client) = EvResourceGroupsList :: t)
  ∧ (∀ cred i p rest body e,
       outcome (signed_session cred) = inl e →
       iterate cred i (p :: rest) body = (trace (signed_session cred), inl e))
  ∧ (∀ cred i (p : page) rest body token e,
       outcome (signed_session cred) = inr token →
       p token = inl e →
       iterate cred i (p :: rest) body
       = (trace (signed_session cred) ++ [EvRequestPage i], inl e)).
Proof.
  split; [apply module_body_authenticate_raises|].
  split; [apply module_body_client_raises|].
  split; [apply module_body_listing|].
  split.
  { intros e He.
    destruct (outcome (authenticate w)) as [e'|[conn cred]] eqn:Ha.
    - rewrite (module_body_authenticate_raises _ _ Ha) in He. cbn in He.
      injection He as ->. by left.
    - right. exists conn, cred. split; [done|].
      destruct (outcome (initialize_client w conn cred)) as [e'|client] eqn:Hc.
      + rewrite (module_body_client_raises _ _ _ _ Ha Hc) in He. cbn in He.
        injection He as ->. by left.
      + right. exists client. split; [done|].
        rewrite (module_body_listing _ _ _ _ Ha Hc) in He. exact He. }
  split; [apply authenticate_footprint|].
  split; [intros conn cred; apply initialize_client_footprint|].
  split; [apply list_and_print_starts|].
  split; [apply iterate_token_raises|apply iterate_page_raises].
Qed.

Lemma listing_refused_run :
  module_body listing_refused
  = (module_trace listing_refused "pfx-bytes" {| get_privatekey := "key-1" |}
       "tenant-1" "sub-1"
     ++ [EvAcquireToken "https://management.core.windows.net/"
           "app-1" "pem-1" "AB12";
         EvRequestPage 0],
     inl (Exception "CloudError")).
Proof. vm_compute. reflexivity. Qed.

(** C3, as the specification states it, fails: in the world
    [listing_refused] the credential is built, the token is granted,
    and the run is stopped all the same, by the CloudError of the
    listing request. *)
Lemma listing_failure_is_fatal_too : ¬ only_authentication_failure_is_fatal.
Proof.
  intros Hclaim.
  destruct (Hclaim listing_refused (Exception "CloudError")) as [Hauth _].
  { by rewrite listing_refused_run. }
  destruct Hauth as [Hauth|(conn & cred & Hauth & Htoken)].
  - vm_compute in Hauth. discriminate.
  - assert (Hcred : ∃ t, authenticate listing_refused
        = (t, inr (runas_fields,
                   lazy_credential listing_refused
                     {| authority := "https://login.microsoftonline.com/tenant-1" |}
                     "https://management.core.windows.net/"
                     "app-1" "pem-1" "AB12"))).
    { eexists. vm_compute. reflexivity. }
    destruct Hcred as [t Hcred]. rewrite Hcred in Hauth. cbn in Hauth.
    injection Hauth as <- <-. vm_compute in Htoken. discriminate.
Qed.

(** The run in the world whose token endpoint rejects the certificate:
    the exception comes out of the listing section, after the call of
    resource_groups.list(). *)
Lemma every_exception_aborts_the_run_witness :
  (∃ conn cred client,
     outcome (authenticate token_refused) = inr (conn, cred)
     ∧ outcome (initialize_client token_refused conn cred) = inr client
     ∧ outcome (list_and_print token_refused client) = inl (Exception "AdalError"))
  ∧ outcome (module_body token_refused) = inl (Exception "AdalError")
  ∧ EvResourceGroupsList ∈ trace (module_body token_refused).
Proof.
  destruct (every_exception_aborts_the_run token_refused)
    as (_ & _ & Hlist & Hwhy & _ & _ & Hstart & _).
  assert (Hrun : outcome (module_body token_refused) = inl (Exception "AdalError"))
    by (vm_compute; reflexivity).
  destruct (Hwhy _ Hrun) as [Ha|(conn & cred & Ha & [Hc|(client & Hc & Hl)])].
  - vm_compute in Ha. discriminate.
  - exfalso.
    assert (Hcred : ∃ t c, authenticate token_refused = (t, inr (runas_fields, c))).
    { do 2 eexists. vm_compute. reflexivity. }
    destruct Hcred as (t & c & Hcred). rewrite Hcred in Ha. cbn in Ha.
    injection Ha as <- <-. vm_compute in Hc. discriminate.
  - split; [by exists conn, cred, client|]. split; [exact Hrun|].
    rewrite (Hlist _ _ _ Ha Hc). cbn [trace fst].
    destruct (Hstart client) as [t ->].
    rewrite !elem_of_app. right. right. apply list_elem_of_here.
Defined.

(** *** The module level *)

(** In a world whose collaborators answer, the statements of the module
    body run one after the other, down to the loop. *)
Lemma module_body_runs w conn app thumb tenant sub cert p12 pem ctx :
  module_answers w conn sub →
  runas_connection_has conn app thumb tenant sub →
  setup_answers w (active_directory (AZURE_PUBLIC_CLOUD w) +:+ "/" +:+ tenant)
    cert p12 pem ctx →
  let cred := lazy_credential w ctx
                (active_directory_resource_id (AZURE_PUBLIC_CLOUD w))
                app pem thumb in
  module_body w
  = (module_trace w cert p12 tenant sub ++ trace (print_groups w cred sub),
     outcome (print_groups w cred sub)).
Proof.
  intros (Himp & Hconn & Hascii & Hclient) (Happ & Hthumb & Htenant & Hsub)
    Hsetup cred.
  apply Forall_cons in Himp as [Hi1 Himp].
  apply Forall_cons in Himp as [Hi2 Himp].
  apply Forall_cons in Himp as [Hi3 _].
  unfold module_body, import.
  rewrite Hi1, Hi2, Hi3, Hconn, !call_bind. cbn [trace outcome fst snd].
  rewrite (credential_returns _ _ _ _ _ _ _ _ _ _ _ Happ Hthumb Htenant Hsetup).
  erewrite bind_returned by reflexivity. cbn [trace outcome fst snd].
  rewrite (getitem_bind _ _ _ _ Hsub).
  unfold py_str. rewrite Hascii, ret_bind, Hclient.
  rewrite bind_assoc, call_bind, ret_bind. cbn [trace outcome fst snd].
  unfold resource_groups_list, print_groups. cbn [rc_subscription_id rc_base_url].
  destruct (resource_group_pages w sub _) as [first more].
  rewrite call_bind. cbn [trace outcome fst snd pg_credentials pg_pages rc_credentials].
  reflexivity.
Qed.

(** The statements from line 50 on, and the compound statements of the
    whole file. *)
Lemma source_module_level :
  ∃ lls, logical_lines source = inr lls
    ∧ map (λ l, (ll_line l, keyword l, ll_indent l))
          (List.filter (λ l, 50 <=? ll_line l) lls)
      = [ (50, "runas_connection", 0); (51, "resource_url", 0);
          (52, "authority_url", 0); (53, "resourceManager_url", 0);
          (54, "azure_credential", 0); (57, "resource_client", 0);
          (63, "groups", 0); (64, "for", 0); (65, "print", 4) ]
    ∧ map (λ l, (ll_line l, keyword l)) (List.filter ll_colon lls)
      = [ (13, "def"); (40, "def"); (43, "def"); (46, "def"); (64, "for") ].
Proof. eexists. split; [vm_compute; reflexivity|]. vm_compute. done. Qed.

(** Each stub name occurs in the text once, on the line that declares it. *)
Lemma source_stub_names :
  lines_with "get_current_date" 1 source = [40]
  ∧ lines_with "test_schedule_entry" 1 source = [43]
  ∧ lines_with "assert_resource_power_state" 1 source = [46].
Proof. vm_compute. done. Qed.

(** C9: the work is done at module level, unguarded, and the stubs are
    never called.  In the text, the statements from line 50 on stand at
    column 0 (the body of the for loop at line 65 apart), and the only
    compound statements of the file are the four def statements and
    that for loop: there is no if, so no entry-point guard.  In a world
    whose collaborators answer, the module body retrieves the
    connection, builds the credential, constructs the client, calls the
    listing and goes through the loop that prints, in this order and
    with no condition consulted.  The names get_current_date,
    test_schedule_entry and assert_resource_power_state occur in the text
    only where they are declared, and no event of the module body, or of
    a run of the file, in any world, is a call of one of them. *)
Theorem module_level_work_is_unguarded
    w conn app thumb tenant sub cert p12 pem ctx :
  module_answers w conn sub →
  runas_connection_has conn app thumb tenant sub →
  setup_answers w (active_directory (AZURE_PUBLIC_CLOUD w) +:+ "/" +:+ tenant)
    cert p12 pem ctx →
  (∃ lls, logical_lines source = inr lls
     ∧ map (λ l, (ll_line l, keyword l, ll_indent l))
           (List.filter (λ l, 50 <=? ll_line l) lls)
       = [ (50, "runas_connection", 0); (51, "resource_url", 0);
           (52, "authority_url", 0); (53, "resourceManager_url", 0);
           (54, "azure_credential", 0); (57, "resource_client", 0);
           (63, "groups", 0); (64, "for", 0); (65, "print", 4) ]
     ∧ map (λ l, (ll_line l, keyword l)) (List.filter ll_colon lls)
       = [ (13, "def"); (40, "def"); (43, "def"); (46, "def"); (64, "for") ])
  ∧ (let cred := lazy_credential w ctx
                   (active_directory_resource_id (AZURE_PUBLIC_CLOUD w))
                   app pem thumb in
     module_body w
     = (module_trace w cert p12 tenant sub ++ trace (print_groups w cred sub),
        outcome (print_groups w cred sub)))
  ∧ (lines_with "get_current_date" 1 source = [40]
     ∧ lines_with "test_schedule_entry" 1 source = [43]
     ∧ lines_with "assert_resource_power_state" 1 source = [46])
  ∧ (∀ w', Forall (λ ev, stub_call ev = false) (trace (module_body w'))
           ∧ Forall (λ ev, stub_call ev = false) (run_trace w')).
Proof.
  intros Hmodule Hconn Hsetup.
  split; [apply source_module_level|].
  split; [by eapply module_body_runs|].
  split; [apply source_stub_names|].
  intros w'. split.
  - eapply Forall_impl; [apply module_body_footprint|].
    apply script_event_not_stub.
  - rewrite run_trace_nil. constructor.
Qed.

(** The module body in the world where every collaborator answers. *)
Lemma module_level_work_is_unguarded_witness :
  module_answers good_world runas_fields "sub-1"
  ∧ runas_connection_has runas_fields "app-1" "AB12" "tenant-1" "sub-1"
  ∧ setup_answers good_world "https://login.microsoftonline.com/tenant-1"
      "pfx-bytes" {| get_privatekey := "key-1" |} "pem-1"
      {| authority := "https://login.microsoftonline.com/tenant-1" |}
  ∧ module_body good_world
    = (module_trace good_world "pfx-bytes" {| get_privatekey := "key-1" |}
         "tenant-1" "sub-1"
       ++ [ EvAcquireToken "https://management.core.windows.net/"
              "app-1" "pem-1" "AB12";
            EvRequestPage 0; EvPrint "rg-prod"; EvPrint "rg-dev" ],
       inr ()).
Proof.
  assert (Hmodule : module_answers good_world runas_fields "sub-1").
  { repeat split; repeat constructor. }
  assert (Hconn : runas_connection_has runas_fields
                    "app-1" "AB12" "tenant-1" "sub-1").
  { repeat split; vm_compute; reflexivity. }
  assert (Hsetup : setup_answers good_world
            "https://login.microsoftonline.com/tenant-1"
            "pfx-bytes" {| get_privatekey := "key-1" |} "pem-1"
            {| authority := "https://login.microsoftonline.com/tenant-1" |}).
  { repeat split; repeat constructor. }
  do 3 (split; [assumption|]).
  destruct (module_level_work_is_unguarded good_world runas_fields
              "app-1" "AB12" "tenant-1" "sub-1" "pfx-bytes"
              {| get_privatekey := "key-1" |} "pem-1"
              {| authority := "https://login.microsoftonline.com/tenant-1" |}
              Hmodule Hconn Hsetup) as (_ & Hrun & _).
  rewrite Hrun. reflexivity.
Defined.

Lemma signed_session_lazy w ctx r c k t :
  signed_session (lazy_credential w ctx r c k t)
  = call (EvAcquireToken r c k t)
         (acquire_token_with_client_certificate w ctx r c k t).
Proof. reflexivity. Qed.



(* ===================================================================== *)
(** ** Further properties of the script                                   *)
(* ===================================================================== *)

(** *** Fields of the connection *)

Lemma first_missing_spec conn key :
  first_missing conn = Some key →
  conn !! key = None
  ∧ (key = "ApplicationId"
     ∨ (key = "CertificateThumbprint" ∧ is_Some (conn !! "ApplicationId"))
     ∨ (key = "TenantId" ∧ is_Some (conn !! "ApplicationId")
        ∧ is_Some (conn !! "CertificateThumbprint"))).
Proof.
  unfold first_missing, credential_fields. cbn [List.find].
  destruct (conn !! "ApplicationId") as [app|] eqn:Happ.
  2: { rewrite bool_decide_eq_true_2 by done. intros [= <-]. auto. }
  rewrite bool_decide_eq_false_2 by done.
  destruct (conn !! "CertificateThumbprint") as [thumb|] eqn:Hthumb.
  2: { rewrite bool_decide_eq_true_2 by done. intros [= <-]. eauto 6. }
  rewrite bool_decide_eq_false_2 by done.
  destruct (conn !! "TenantId") as [tenant|] eqn:Htenant.
  2: { rewrite bool_decide_eq_true_2 by done. intros [= <-]. eauto 8. }
  rewrite bool_decide_eq_false_2 by done. done.
Qed.

(** A connection that lacks one of the three fields: whatever the
    collaborators do, the function raises and creates no authentication
    context; when the certificate steps answer, the certificate has been
    fetched and its key dumped before the field is missed, and the
    exception is the KeyError of the first missing field in the order
    ApplicationId, CertificateThumbprint, TenantId. *)
Theorem credential_missing_field w conn resource_url authority_url key :
  first_missing conn = Some key →
  let run := get_automation_runas_credential w conn resource_url authority_url in
  (∃ e, outcome run = inl e)
  ∧ Forall (λ ev, is_new_context ev = false) (trace run)
  ∧ (∀ cert p12 pem,
       certificate_answers w cert p12 pem →
       run = (certificate_trace cert p12, inl (KeyError key))).
Proof.
  intros Hkey run. subst run.
  destruct (first_missing_spec _ _ Hkey) as [Hnone Hcase].
  assert (Hshape : ∀ (k : exn + AdalAuthentication → Prop),
    (∀ e, k (inl e)) →
    k (outcome (get_automation_runas_credential w conn resource_url authority_url))
    ∧ Forall (λ ev, is_new_context ev = false)
        (trace (get_automation_runas_credential w conn resource_url authority_url))).
  { intros k Hk.
    unfold get_automation_runas_credential, import, getitem.
    destruct (import_module w "OpenSSL") as [e|[]];
      [split; [apply Hk|by repeat constructor]|].
    destruct (import_module w "msrestazure") as [e|[]];
      [split; [apply Hk|by repeat constructor]|].
    destruct (import_module w "adal") as [e|[]];
      [split; [apply Hk|by repeat constructor]|].
    destruct (get_automation_certificate w _) as [e|cert];
      [split; [apply Hk|by repeat constructor]|].
    rewrite !call_bind. cbn [trace outcome fst snd].
    destruct (load_pkcs12 w cert) as [e|p12];
      [split; [apply Hk|by repeat constructor]|].
    rewrite !call_bind. cbn [trace outcome fst snd].
    destruct (dump_privatekey w _) as [e|pem];
      [split; [apply Hk|by repeat constructor]|].
    rewrite !call_bind. cbn [trace outcome fst snd].
    destruct Hcase as [->|[[-> [app Happ]]|(-> & [app Happ] & [thumb Hthumb])]].
    - rewrite Hnone. split; [apply Hk|by repeat constructor].
    - rewrite Happ, Hnone, ret_bind. split; [apply Hk|by repeat constructor].
    - rewrite Happ, Hthumb, Hnone, !ret_bind.
      split; [apply Hk|by repeat constructor]. }
  split.
  { apply (Hshape (λ r, ∃ e, r = inl e)). eauto. }
  split; [apply (Hshape (λ _, True)); done|].
  intros cert p12 pem (Himp & Hcert & Hload & Hdump).
  apply Forall_cons in Himp as [Hi1 Himp].
  apply Forall_cons in Himp as [Hi2 Himp].
  apply Forall_cons in Himp as [Hi3 _].
  unfold get_automation_runas_credential, import, getitem.
  rewrite Hi1, Hi2, Hi3, Hcert, !call_bind. cbn [trace outcome fst snd].
  rewrite Hload, call_bind. cbn [trace outcome fst snd].
  rewrite Hdump, call_bind. cbn [trace outcome fst snd].
  destruct Hcase as [->|[[-> [app Happ]]|(-> & [app Happ] & [thumb Hthumb])]].
  - rewrite Hnone. reflexivity.
  - rewrite Happ, Hnone, ret_bind. reflexivity.
  - rewrite Happ, Hthumb, Hnone, !ret_bind. reflexivity.
Qed.

(** The connection without its tenant, in the world that answers. *)
Lemma credential_missing_field_witness :
  first_missing fields_without_tenant = Some "TenantId"
  ∧ get_automation_runas_credential good_world fields_without_tenant
      "https://management.core.windows.net/" "https://login.microsoftonline.com"
    = (certificate_trace "pfx-bytes" {| get_privatekey := "key-1" |},
       inl (KeyError "TenantId")).
Proof.
  assert (Hkey : first_missing fields_without_tenant = Some "TenantId")
    by (vm_compute; reflexivity).
  split; [exact Hkey|].
  destruct (credential_missing_field good_world fields_without_tenant
              "https://management.core.windows.net/"
              "https://login.microsoftonline.com" "TenantId" Hkey)
    as (_ & _ & Hrun).
  apply (Hrun _ _ "pem-1"). repeat split; repeat constructor.
Defined.

(** The function reads the connection at the three fields only: two
    connections that agree on ApplicationId, CertificateThumbprint and
    TenantId give the same events, the same exception or the same
    credential; SubscriptionId and any other field are not looked at. *)
Theorem credential_reads_three_fields w conn conn' resource_url authority_url :
  (∀ key, key ∈ credential_fields → conn !! key = conn' !! key) →
  get_automation_runas_credential w conn resource_url authority_url
  = get_automation_runas_credential w conn' resource_url authority_url.
Proof.
  intros Hagree. unfold get_automation_runas_credential, getitem.
  rewrite (Hagree "ApplicationId"), (Hagree "CertificateThumbprint"),
    (Hagree "TenantId"); [done|..]; unfold credential_fields;
    repeat first [apply list_elem_of_here | apply list_elem_of_further].
Qed.

(** The connection with and without its subscription. *)
Lemma credential_reads_three_fields_witness :
  (∀ key, key ∈ credential_fields →
     runas_fields !! key = fields_without_subscription !! key)
  ∧ runas_fields !! "SubscriptionId" ≠ fields_without_subscription !! "SubscriptionId"
  ∧ get_automation_runas_credential good_world runas_fields
      "https://management.core.windows.net/" "https://login.microsoftonline.com"
    = get_automation_runas_credential good_world fields_without_subscription
      "https://management.core.windows.net/" "https://login.microsoftonline.com".
Proof.
  assert (Hagree : ∀ key, key ∈ credential_fields →
            runas_fields !! key = fields_without_subscription !! key).
  { intros key Hkey. unfold credential_fields in Hkey.
    repeat (apply elem_of_cons in Hkey as [->|Hkey]; [vm_compute; reflexivity|]).
    by apply elem_of_nil in Hkey. }
  split; [exact Hagree|]. split; [vm_compute; discriminate|].
  exact (credential_reads_three_fields good_world runas_fields
           fields_without_subscription _ _ Hagree).
Defined.

(** *** The subscription *)

(** What [authenticate] has done when it returns. *)
Lemma authenticate_value w conn cred :
  outcome (authenticate w) = inr (conn, cred) →
  prelude_answers w conn
  ∧ outcome (get_automation_runas_credential w conn
               (active_directory_resource_id (AZURE_PUBLIC_CLOUD w))
               (active_directory (AZURE_PUBLIC_CLOUD w))) = inr cred
  ∧ trace (authenticate w)
    = prelude_trace
      ++ trace (get_automation_runas_credential w conn
                  (active_directory_resource_id (AZURE_PUBLIC_CLOUD w))
                  (active_directory (AZURE_PUBLIC_CLOUD w))).
Proof.
  unfold authenticate, import, prelude_answers.
  destruct (import_module w "azure.mgmt.resource") as [e|[]] eqn:Hi1; [done|].
  destruct (import_module w "automationassets") as [e|[]] eqn:Hi2; [done|].
  destruct (import_module w "msrestazure.azure_cloud") as [e|[]] eqn:Hi3; [done|].
  destruct (get_automation_connection w _) as [e|conn0] eqn:Hconn; [done|].
  rewrite !call_bind. cbn [trace outcome fst snd].
  destruct (outcome (get_automation_runas_credential w conn0
              (active_directory_resource_id (AZURE_PUBLIC_CLOUD w))
              (active_directory (AZURE_PUBLIC_CLOUD w))))
    as [e|cred0] eqn:Hcred.
  - rewrite (bind_raised _ _ _ Hcred). done.
  - rewrite (bind_returned _ _ _ Hcred). cbn. intros [= <- <-].
    split; [|split; [done|by rewrite app_nil_r]].
    split; [by repeat constructor|done].
Qed.

Lemma authenticate_before_client w :
  obeys before_client (λ _, True) (authenticate w).
Proof.
  unfold authenticate, import.
  repeat walk ltac:(repeat split;
    first [apply script_connection | apply script_import; member]).
  eapply (obeys_bind _ (λ _, True)); [|intros; by apply obeys_ret].
  eapply obeys_weaken; [| |apply credential_footprint]; [|done].
  intros ev Hev. repeat split; try (by destruct Hev). by constructor.
Qed.

(** When the client cannot be initialized for a reason that is in the
    connection itself, the run ends before the client is constructed. *)
Lemma module_body_client_unbuilt w conn e :
  get_automation_connection w "AzureRunAsConnection" = inr conn →
  (∀ cred, initialize_client w conn cred = ([], inl e)) →
  (∃ e', outcome (module_body w) = inl e')
  ∧ Forall before_client (trace (module_body w))
  ∧ (∀ cred, outcome (authenticate w) = inr (conn, cred) →
       module_body w = (trace (authenticate w), inl e)).
Proof.
  intros Hconn Hinit.
  assert (Hret : ∀ cred, outcome (authenticate w) = inr (conn, cred) →
            module_body w = (trace (authenticate w), inl e)).
  { intros cred Ha.
    rewrite (module_body_client_raises w conn cred e Ha)
      by (by rewrite Hinit).
    by rewrite Hinit, app_nil_r. }
  destruct (outcome (authenticate w)) as [e'|[conn' cred]] eqn:Ha.
  - rewrite (module_body_authenticate_raises _ _ Ha).
    split; [by eexists|]. split; [apply authenticate_before_client|done].
  - destruct (authenticate_value _ _ _ Ha) as ([_ Hconn'] & _ & _).
    rewrite Hconn in Hconn'. injection Hconn' as <-.
    rewrite (Hret cred eq_refl).
    split; [by eexists|]. split; [apply authenticate_before_client|].
    intros cred' _. reflexivity.
Qed.

Lemma authenticate_returns w conn app thumb tenant cert p12 pem ctx :
  prelude_answers w conn →
  conn !! "ApplicationId" = Some app →
  conn !! "CertificateThumbprint" = Some thumb →
  conn !! "TenantId" = Some tenant →
  setup_answers w (active_directory (AZURE_PUBLIC_CLOUD w) +:+ "/" +:+ tenant)
    cert p12 pem ctx →
  authenticate w
  = (prelude_trace
     ++ setup_trace (active_directory (AZURE_PUBLIC_CLOUD w) +:+ "/" +:+ tenant)
          cert p12,
     inr (conn, lazy_credential w ctx
                  (active_directory_resource_id (AZURE_PUBLIC_CLOUD w))
                  app pem thumb)).
Proof.
  intros [Himp Hconn] Happ Hthumb Htenant Hsetup.
  apply Forall_cons in Himp as [Hi1 Himp].
  apply Forall_cons in Himp as [Hi2 Himp].
  apply Forall_cons in Himp as [Hi3 _].
  unfold authenticate, import.
  rewrite Hi1, Hi2, Hi3, Hconn, !call_bind. cbn [trace outcome fst snd].
  rewrite (credential_returns _ _ _ _ _ _ _ _ _ _ _ Happ Hthumb Htenant Hsetup).
  reflexivity.
Qed.

(** A connection without SubscriptionId: the run raises, and no client
    is constructed, no listing call or token request made and nothing
    printed, whatever the collaborators do.  The field is read only once
    the credential is built: when the steps before it answer, the whole
    build-up of the credential has taken place and the exception is the
    KeyError of SubscriptionId. *)
Theorem missing_subscription_stops_the_run w conn :
  get_automation_connection w "AzureRunAsConnection" = inr conn →
  conn !! "SubscriptionId" = None →
  (∃ e, outcome (module_body w) = inl e)
  ∧ Forall before_client (trace (module_body w))
  ∧ (∀ app thumb tenant cert p12 pem ctx,
       prelude_answers w conn →
       conn !! "ApplicationId" = Some app →
       conn !! "CertificateThumbprint" = Some thumb →
       conn !! "TenantId" = Some tenant →
       setup_answers w
         (active_directory (AZURE_PUBLIC_CLOUD w) +:+ "/" +:+ tenant)
         cert p12 pem ctx →
       module_body w
       = (prelude_trace
          ++ setup_trace
               (active_directory (AZURE_PUBLIC_CLOUD w) +:+ "/" +:+ tenant)
               cert p12,
          inl (KeyError "SubscriptionId"))).
Proof.
  intros Hconn Hsub.
  assert (Hinit : ∀ cred, initialize_client w conn cred
                          = ([], inl (KeyError "SubscriptionId"))).
  { intros cred. unfold initialize_client, getitem. by rewrite Hsub. }
  destruct (module_body_client_unbuilt _ _ _ Hconn Hinit) as (He & Hquiet & Hrun).
  split; [exact He|]. split; [exact Hquiet|].
  intros app thumb tenant cert p12 pem ctx Hpre Happ Hthumb Htenant Hsetup.
  pose proof (authenticate_returns _ _ _ _ _ _ _ _ _ Hpre Happ Hthumb Htenant Hsetup)
    as Ha.
  rewrite (Hrun _ (f_equal snd Ha)), Ha. reflexivity.
Qed.

(** The world whose connection asset has no subscription. *)
Lemma missing_subscription_stops_the_run_witness :
  get_automation_connection (with_connection fields_without_subscription)
    "AzureRunAsConnection" = inr fields_without_subscription
  ∧ fields_without_subscription !! "SubscriptionId" = None
  ∧ module_body (with_connection fields_without_subscription)
    = (prelude_trace
       ++ setup_trace "https://login.microsoftonline.com/tenant-1"
            "pfx-bytes" {| get_privatekey := "key-1" |},
       inl (KeyError "SubscriptionId")).
Proof.
  assert (Hsub : fields_without_subscription !! "SubscriptionId" = None)
    by (vm_compute; reflexivity).
  split; [reflexivity|]. split; [exact Hsub|].
  destruct (missing_subscription_stops_the_run
              (with_connection fields_without_subscription)
              fields_without_subscription eq_refl Hsub) as (_ & _ & Hrun).
  apply (Hrun "app-1" "AB12" "tenant-1" "pfx-bytes"
           {| get_privatekey := "key-1" |} "pem-1"
           {| authority := "https://login.microsoftonline.com/tenant-1" |}).
  - split; [by repeat constructor|reflexivity].
  - vm_compute; reflexivity.
  - vm_compute; reflexivity.
  - vm_compute; reflexivity.
  - repeat split; repeat constructor.
Defined.

(** A subscription that is not ASCII: [str] raises UnicodeEncodeError,
    again once the credential is built and before the client is
    constructed; no listing call is made and nothing is printed. *)
Theorem odd_subscription_stops_the_run w conn sub :
  get_automation_connection w "AzureRunAsConnection" = inr conn →
  conn !! "SubscriptionId" = Some sub →
  forallb is_ascii (list_ascii_of_string sub) = false →
  (∃ e, outcome (module_body w) = inl e)
  ∧ Forall before_client (trace (module_body w))
  ∧ (∀ app thumb tenant cert p12 pem ctx,
       prelude_answers w conn →
       conn !! "ApplicationId" = Some app →
       conn !! "CertificateThumbprint" = Some thumb →
       conn !! "TenantId" = Some tenant →
       setup_answers w
         (active_directory (AZURE_PUBLIC_CLOUD w) +:+ "/" +:+ tenant)
         cert p12 pem ctx →
       module_body w
       = (prelude_trace
          ++ setup_trace
               (active_directory (AZURE_PUBLIC_CLOUD w) +:+ "/" +:+ tenant)
               cert p12,
          inl UnicodeEncodeError)).
Proof.
  intros Hconn Hsub Hodd.
  assert (Hinit : ∀ cred, initialize_client w conn cred
                          = ([], inl UnicodeEncodeError)).
  { intros cred. unfold initialize_client.
    rewrite (getitem_bind _ _ _ _ Hsub). unfold py_str. by rewrite Hodd. }
  destruct (module_body_client_unbuilt _ _ _ Hconn Hinit) as (He & Hquiet & Hrun).
  split; [exact He|]. split; [exact Hquiet|].
  intros app thumb tenant cert p12 pem ctx Hpre Happ Hthumb Htenant Hsetup.
  pose proof (authenticate_returns _ _ _ _ _ _ _ _ _ Hpre Happ Hthumb Htenant Hsetup)
    as Ha.
  rewrite (Hrun _ (f_equal snd Ha)), Ha. reflexivity.
Qed.

(** The world whose subscription starts with a letter outside ASCII. *)
Lemma odd_subscription_stops_the_run_witness :
  get_automation_connection (with_connection fields_with_odd_subscription)
    "AzureRunAsConnection" = inr fields_with_odd_subscription
  ∧ fields_with_odd_subscription !! "SubscriptionId"
    = Some (String "233"%char "t")
  ∧ forallb is_ascii (list_ascii_of_string (String "233"%char "t")) = false
  ∧ module_body (with_connection fields_with_odd_subscription)
    = (prelude_trace
       ++ setup_trace "https://login.microsoftonline.com/tenant-1"
            "pfx-bytes" {| get_privatekey := "key-1" |},
       inl UnicodeEncodeError).
Proof.
  assert (Hsub : fields_with_odd_subscription !! "SubscriptionId"
                 = Some (String "233"%char "t")) by (vm_compute; reflexivity).
  assert (Hodd : forallb is_ascii (list_ascii_of_string (String "233"%char "t"))
                 = false) by (vm_compute; reflexivity).
  split; [reflexivity|]. split; [exact Hsub|]. split; [exact Hodd|].
  destruct (odd_subscription_stops_the_run
              (with_connection fields_with_odd_subscription)
              fields_with_odd_subscription _ eq_refl Hsub Hodd)
    as (_ & _ & Hrun).
  apply (Hrun "app-1" "AB12" "tenant-1" "pfx-bytes"
           {| get_privatekey := "key-1" |} "pem-1"
           {| authority := "https://login.microsoftonline.com/tenant-1" |}).
  - split; [by repeat constructor|reflexivity].
  - vm_compute; reflexivity.
  - vm_compute; reflexivity.
  - vm_compute; reflexivity.
  - repeat split; repeat constructor.
Defined.

(** *** The loop over the pages *)

Lemma print_bind {B} s (k : () → M B) :
  print s ≫= k = (EvPrint s :: trace (k ()), outcome (k ())).
Proof. apply call_bind. Qed.

Lemma for_each_print groups :
  for_each groups (λ group, print (encode_utf8 (rg_name group)))
  = (map printed_line groups, inr ()).
Proof.
  induction groups as [|g groups IH]; [done|].
  cbn [for_each]. rewrite print_bind, IH. reflexivity.
Qed.

Lemma iterate_answers cred token_request token pages answers : ∀ i,
  signed_session cred = ([token_request], inr token) →
  Forall2 (λ (p : page) groups, p token = inr groups) pages answers →
  iterate cred i pages (λ group, print (encode_utf8 (rg_name group)))
  = (listing_trace token_request i answers, inr ()).
Proof.
  intros i Htoken Hpages. revert i.
  induction Hpages as [|p groups pages answers Hp _ IH]; intros i; [done|].
  cbn [iterate listing_trace].
  rewrite Htoken. unfold mbind at 1, M_bind at 1. rewrite Hp, call_bind.
  rewrite for_each_print. unfold mbind at 1, M_bind at 1. rewrite IH.
  reflexivity.
Qed.

Lemma iterate_refused cred token_request token before answers (p : page) after e :
  ∀ i,
  signed_session cred = ([token_request], inr token) →
  Forall2 (λ (p : page) groups, p token = inr groups) before answers →
  p token = inl e →
  iterate cred i (before ++ p :: after)
    (λ group, print (encode_utf8 (rg_name group)))
  = (listing_trace token_request i answers
     ++ [token_request; EvRequestPage (i + length before)],
     inl e).
Proof.
  intros i Htoken Hbefore He. revert i.
  induction Hbefore as [|p0 groups before answers Hp _ IH]; intros i.
  - cbn [app iterate listing_trace length]. rewrite Htoken.
    unfold mbind at 1, M_bind at 1. rewrite He, Nat.add_0_r. reflexivity.
  - cbn [app iterate listing_trace length].
    rewrite Htoken. unfold mbind at 1, M_bind at 1. rewrite Hp, call_bind.
    rewrite for_each_print. unfold mbind at 1, M_bind at 1. rewrite IH.
    rewrite Nat.add_succ_r. cbn [Nat.add]. cbn.
    by rewrite <- app_assoc.
Qed.

Lemma printed_app t1 t2 : printed (t1 ++ t2) = printed t1 ++ printed t2.
Proof. apply omap_app. Qed.

Lemma printed_lines groups :
  printed (map printed_line groups) = map (λ g, encode_utf8 (rg_name g)) groups.
Proof. induction groups as [|g groups IH]; [done|]. cbn. by rewrite <- IH. Qed.

Lemma printed_listing_trace token_request answers : ∀ i,
  is_print token_request = false →
  printed (listing_trace token_request i answers)
  = map (λ g, encode_utf8 (rg_name g)) (concat answers).
Proof.
  intros i Hev. revert i. induction answers as [|groups answers IH]; intros i; [done|].
  cbn [listing_trace concat]. rewrite map_app, <- (IH (S i)), <- printed_lines.
  rewrite <- printed_app. destruct token_request; try discriminate; reflexivity.
Qed.

Lemma printed_module_trace w cert p12 tenant sub :
  printed (module_trace w cert p12 tenant sub) = [].
Proof. reflexivity. Qed.

Lemma occurrences_app kind t1 t2 :
  occurrences kind (t1 ++ t2) = occurrences kind t1 + occurrences kind t2.
Proof. unfold occurrences. by rewrite List.filter_app, length_app. Qed.

Lemma occurrences_printed_lines kind groups :
  (∀ s, kind (EvPrint s) = false) →
  occurrences kind (map printed_line groups) = 0.
Proof.
  intros Hkind. induction groups as [|g groups IH]; [done|].
  unfold occurrences in *. cbn [map List.filter]. unfold printed_line at 1.
  by rewrite Hkind.
Qed.

Lemma token_requests_listing_trace r c k t answers : ∀ i,
  occurrences is_acquire_token (listing_trace (EvAcquireToken r c k t) i answers)
  = length answers.
Proof.
  intros i. revert i. induction answers as [|groups answers IH]; intros i; [done|].
  cbn [listing_trace length].
  change (occurrences is_acquire_token
            (EvAcquireToken r c k t :: EvRequestPage i
             :: map printed_line groups
             ++ listing_trace (EvAcquireToken r c k t) (S i) answers))
    with (S (occurrences is_acquire_token
               (map printed_line groups
                ++ listing_trace (EvAcquireToken r c k t) (S i) answers))).
  by rewrite occurrences_app, occurrences_printed_lines, IH.
Qed.

(** The listing when every page answers.  With the connection, the
    credential and the client obtained, the token granted and each page
    of the subscription answering with its groups, the run returns; it
    prints the name of every group of every page, UTF-8 encoded, page
    after page and in the order of the page; it requests the pages by
    their numbers from 0 on, and one token per page. *)
Theorem listing_prints_every_group
    w conn app thumb tenant sub cert p12 pem ctx token answers :
  module_answers w conn sub →
  runas_connection_has conn app thumb tenant sub →
  setup_answers w (active_directory (AZURE_PUBLIC_CLOUD w) +:+ "/" +:+ tenant)
    cert p12 pem ctx →
  acquire_token_with_client_certificate w ctx
    (active_directory_resource_id (AZURE_PUBLIC_CLOUD w)) app pem thumb
  = inr token →
  Forall2 (λ (p : page) groups, p token = inr groups) (pages_of w sub) answers →
  let token_request :=
    EvAcquireToken (active_directory_resource_id (AZURE_PUBLIC_CLOUD w))
      app pem thumb in
  module_body w
  = (module_trace w cert p12 tenant sub ++ listing_trace token_request 0 answers,
     inr ())
  ∧ printed (trace (module_body w))
    = map (λ g, encode_utf8 (rg_name g)) (concat answers)
  ∧ occurrences is_acquire_token (trace (module_body w))
    = length (pages_of w sub).
Proof.
  intros Hmodule Hconn Hsetup Htoken Hpages token_request.
  assert (Hrun : module_body w
    = (module_trace w cert p12 tenant sub ++ listing_trace token_request 0 answers,
       inr ())).
  { rewrite (module_body_runs _ _ _ _ _ _ _ _ _ _ Hmodule Hconn Hsetup).
    unfold print_groups. fold (pages_of w sub).
    erewrite iterate_answers; [reflexivity| |exact Hpages].
    unfold signed_session, lazy_credential. cbn. by rewrite Htoken. }
  split; [exact Hrun|]. rewrite Hrun. cbn [trace fst]. split.
  - rewrite printed_app, printed_module_trace.
    by apply printed_listing_trace.
  - rewrite occurrences_app. subst token_request.
    rewrite token_requests_listing_trace.
    by rewrite (Forall2_length _ _ _ Hpages).
Qed.

(** Two pages, of two groups and of one. *)
Lemma listing_prints_every_group_witness :
  module_answers two_pages runas_fields "sub-1"
  ∧ runas_connection_has runas_fields "app-1" "AB12" "tenant-1" "sub-1"
  ∧ Forall2 (λ (p : page) groups, p "token-1" = inr groups)
      (pages_of two_pages "sub-1") [page_one; page_two]
  ∧ outcome (module_body two_pages) = inr ()
  ∧ printed (trace (module_body two_pages)) = ["rg-prod"; "rg-dev"; "rg-test"]
  ∧ occurrences is_acquire_token (trace (module_body two_pages)) = 2.
Proof.
  assert (Hmodule : module_answers two_pages runas_fields "sub-1").
  { repeat split; repeat constructor. }
  assert (Hconn : runas_connection_has runas_fields
                    "app-1" "AB12" "tenant-1" "sub-1").
  { repeat split; vm_compute; reflexivity. }
  assert (Hpages : Forall2 (λ (p : page) groups, p "token-1" = inr groups)
                     (pages_of two_pages "sub-1") [page_one; page_two]).
  { repeat constructor. }
  do 3 (split; [assumption|]).
  destruct (listing_prints_every_group two_pages runas_fields
              "app-1" "AB12" "tenant-1" "sub-1" "pfx-bytes"
              {| get_privatekey := "key-1" |} "pem-1"
              {| authority := "https://login.microsoftonline.com/tenant-1" |}
              "token-1" [page_one; page_two] Hmodule Hconn)
    as (Hrun & Hprinted & Htokens); [| |exact Hpages|].
  - repeat split; repeat constructor.
  - reflexivity.
  - split; [by rewrite Hrun|]. split; [exact Hprinted|exact Htokens].
Defined.

(** A page that is refused.  With everything before the listing
    obtained and the token granted, when the pages before some page
    answer and that page raises, the run ends with that exception right
    after the request of that page: the groups of the earlier pages have
    been printed, in order, and neither a group of a later page is
    printed nor a later page requested. *)
Theorem refused_page_keeps_earlier_output
    w conn app thumb tenant sub cert p12 pem ctx token
    before answers (p : page) after e :
  module_answers w conn sub →
  runas_connection_has conn app thumb tenant sub →
  setup_answers w (active_directory (AZURE_PUBLIC_CLOUD w) +:+ "/" +:+ tenant)
    cert p12 pem ctx →
  acquire_token_with_client_certificate w ctx
    (active_directory_resource_id (AZURE_PUBLIC_CLOUD w)) app pem thumb
  = inr token →
  pages_of w sub = before ++ p :: after →
  Forall2 (λ (p : page) groups, p token = inr groups) before answers →
  p token = inl e →
  let token_request :=
    EvAcquireToken (active_directory_resource_id (AZURE_PUBLIC_CLOUD w))
      app pem thumb in
  module_body w
  = (module_trace w cert p12 tenant sub
     ++ listing_trace token_request 0 answers
     ++ [token_request; EvRequestPage (length before)],
     inl e)
  ∧ printed (trace (module_body w))
    = map (λ g, encode_utf8 (rg_name g)) (concat answers)
  ∧ occurrences is_page_request (trace (module_body w)) = S (length before).
Proof.
  intros Hmodule Hconn Hsetup Htoken Hsplit Hbefore He token_request.
  assert (Hrun : module_body w
    = (module_trace w cert p12 tenant sub
       ++ listing_trace token_request 0 answers
       ++ [token_request; EvRequestPage (length before)],
       inl e)).
  { rewrite (module_body_runs _ _ _ _ _ _ _ _ _ _ Hmodule Hconn Hsetup).
    unfold print_groups. fold (pages_of w sub). rewrite Hsplit.
    erewrite iterate_refused; [reflexivity| |exact Hbefore|exact He].
    unfold signed_session, lazy_credential. cbn. by rewrite Htoken. }
  split; [exact Hrun|]. rewrite Hrun. cbn [trace fst]. split.
  - rewrite !printed_app, printed_module_trace.
    rewrite (printed_listing_trace _ _ 0) by done.
    by rewrite app_nil_r.
  - rewrite !occurrences_app.
    assert (Hcount : ∀ i answers',
      occurrences is_page_request (listing_trace token_request i answers')
      = length answers').
    { intros i answers'. revert i.
      induction answers' as [|groups answers' IH]; intros i; [done|].
      cbn [listing_trace length].
      change (occurrences is_page_request
                (token_request :: EvRequestPage i
                 :: map printed_line groups
                 ++ listing_trace token_request (S i) answers'))
        with (S (occurrences is_page_request
                   (map printed_line groups
                    ++ listing_trace token_request (S i) answers'))).
      by rewrite occurrences_app, occurrences_printed_lines, IH. }
    rewrite Hcount, (Forall2_length _ _ _ Hbefore).
    change (occurrences is_page_request (module_trace w cert p12 tenant sub))
      with 0.
    change (occurrences is_page_request
              [token_request; EvRequestPage (length answers)]) with 1.
    lia.
Qed.

(** Two pages, the second of which is refused. *)
Lemma refused_page_keeps_earlier_output_witness :
  module_answers second_page_refused runas_fields "sub-1"
  ∧ runas_connection_has runas_fields "app-1" "AB12" "tenant-1" "sub-1"
  ∧ outcome (module_body second_page_refused) = inl (Exception "CloudError")
  ∧ printed (trace (module_body second_page_refused)) = ["rg-prod"; "rg-dev"]
  ∧ occurrences is_page_request (trace (module_body second_page_refused)) = 2.
Proof.
  assert (Hmodule : module_answers second_page_refused runas_fields "sub-1").
  { repeat split; repeat constructor. }
  assert (Hconn : runas_connection_has runas_fields
                    "app-1" "AB12" "tenant-1" "sub-1").
  { repeat split; vm_compute; reflexivity. }
  do 2 (split; [assumption|]).
  destruct (refused_page_keeps_earlier_output second_page_refused runas_fields
              "app-1" "AB12" "tenant-1" "sub-1" "pfx-bytes"
              {| get_privatekey := "key-1" |} "pem-1"
              {| authority := "https://login.microsoftonline.com/tenant-1" |}
              "token-1" [λ _, inr page_one] [page_one]
              (λ _, inl (Exception "CloudError")) []
              (Exception "CloudError") Hmodule Hconn)
    as (Hrun & Hprinted & Hrequests).
  - repeat split; repeat constructor.
  - reflexivity.
  - reflexivity.
  - repeat constructor.
  - reflexivity.
  - split; [by rewrite Hrun|]. split; [exact Hprinted|exact Hrequests].
Defined.

(** A token that is refused.  With everything before the listing
    obtained, when the token request raises, the run ends with that
    exception right after the first token request: resource_groups.list()
    has been called, no page is requested and nothing is printed. *)
Theorem refused_token_stops_the_listing
    w conn app thumb tenant sub cert p12 pem ctx e :
  module_answers w conn sub →
  runas_connection_has conn app thumb tenant sub →
  setup_answers w (active_directory (AZURE_PUBLIC_CLOUD w) +:+ "/" +:+ tenant)
    cert p12 pem ctx →
  acquire_token_with_client_certificate w ctx
    (active_directory_resource_id (AZURE_PUBLIC_CLOUD w)) app pem thumb
  = inl e →
  module_body w
  = (module_trace w cert p12 tenant sub
     ++ [EvAcquireToken (active_directory_resource_id (AZURE_PUBLIC_CLOUD w))
           app pem thumb],
     inl e)
  ∧ printed (trace (module_body w)) = []
  ∧ occurrences is_page_request (trace (module_body w)) = 0.
Proof.
  intros Hmodule Hconn Hsetup Htoken.
  assert (Hrun : module_body w
    = (module_trace w cert p12 tenant sub
       ++ [EvAcquireToken (active_directory_resource_id (AZURE_PUBLIC_CLOUD w))
             app pem thumb],
       inl e)).
  { rewrite (module_body_runs _ _ _ _ _ _ _ _ _ _ Hmodule Hconn Hsetup).
    unfold print_groups.
    destruct (resource_group_pages w sub _) as [first more].
    rewrite (iterate_token_raises _ _ _ _ _ e).
    - reflexivity.
    - unfold signed_session, lazy_credential. cbn. by rewrite Htoken. }
  split; [exact Hrun|]. rewrite Hrun. split; reflexivity.
Qed.

(** The world whose token endpoint rejects the certificate. *)
Lemma refused_token_stops_the_listing_witness :
  module_answers token_refused runas_fields "sub-1"
  ∧ runas_connection_has runas_fields "app-1" "AB12" "tenant-1" "sub-1"
  ∧ outcome (module_body token_refused) = inl (Exception "AdalError")
  ∧ printed (trace (module_body token_refused)) = [].
Proof.
  assert (Hmodule : module_answers token_refused runas_fields "sub-1").
  { repeat split; repeat constructor. }
  assert (Hconn : runas_connection_has runas_fields
                    "app-1" "AB12" "tenant-1" "sub-1").
  { repeat split; vm_compute; reflexivity. }
  do 2 (split; [assumption|]).
  destruct (refused_token_stops_the_listing token_refused runas_fields
              "app-1" "AB12" "tenant-1" "sub-1" "pfx-bytes"
              {| get_privatekey := "key-1" |} "pem-1"
              {| authority := "https://login.microsoftonline.com/tenant-1" |}
              (Exception "AdalError") Hmodule Hconn)
    as (Hrun & Hprinted & _).
  - repeat split; repeat constructor.
  - reflexivity.
  - split; [by rewrite Hrun|exact Hprinted].
Defined.

(** *** Token requests and page requests, in any world *)

Lemma list_and_print_unfold w client :
  list_and_print w client
  = (EvResourceGroupsList
     :: trace (iterate (rc_credentials client) 0 (client_pages w client)
                 (λ group, print (encode_utf8 (rg_name group)))),
     outcome (iterate (rc_credentials client) 0 (client_pages w client)
                (λ group, print (encode_utf8 (rg_name group))))).
Proof.
  unfold list_and_print, resource_groups_list, client_pages.
  destruct (resource_group_pages w _ _) as [first more].
  rewrite call_bind. reflexivity.
Qed.

(** The run of the module body, cut where the listing starts: what comes
    before holds no token request, listing call or printed line; what
    comes after, if anything, is the loop over some pages with the lazy
    credential made of the fields of the connection. *)
Lemma module_body_cut w :
  ∃ before after,
    trace (module_body w) = before ++ after
    ∧ Forall before_listing before
    ∧ (after = []
       ∨ ∃ conn ctx app pem thumb pages,
           get_automation_connection w "AzureRunAsConnection" = inr conn
           ∧ conn !! "ApplicationId" = Some app
           ∧ conn !! "CertificateThumbprint" = Some thumb
           ∧ (∃ client, pages = client_pages w client)
           ∧ after
             = EvResourceGroupsList
               :: trace (iterate
                           (lazy_credential w ctx
                              (active_directory_resource_id (AZURE_PUBLIC_CLOUD w))
                              app pem thumb)
                           0 pages
                           (λ group, print (encode_utf8 (rg_name group))))).
Proof.
  destruct (outcome (authenticate w)) as [e|[conn cred]] eqn:Ha.
  { exists (trace (authenticate w)), [].
    rewrite (module_body_authenticate_raises _ _ Ha), app_nil_r.
    split; [done|]. split; [apply authenticate_footprint|by left]. }
  destruct (outcome (initialize_client w conn cred)) as [e|client] eqn:Hc.
  { exists (trace (authenticate w) ++ trace (initialize_client w conn cred)), [].
    rewrite (module_body_client_raises _ _ _ _ Ha Hc), app_nil_r.
    split; [done|]. split; [|by left].
    apply Forall_app. split;
      [apply authenticate_footprint|apply initialize_client_footprint]. }
  exists (trace (authenticate w) ++ trace (initialize_client w conn cred)),
         (trace (list_and_print w client)).
  rewrite (module_body_listing _ _ _ _ Ha Hc). cbn [trace fst].
  split; [by rewrite app_assoc|]. split.
  { apply Forall_app. split;
      [apply authenticate_footprint|apply initialize_client_footprint]. }
  right.
  destruct (authenticate_value _ _ _ Ha) as ([_ Hconn] & Hcred & _).
  destruct (credential_value _ _ _ _ _ Hcred)
    as (app & thumb & tenant & cert & p12 & pem & ctx
        & Happ & Hthumb & _ & _ & ->).
  destruct (initialize_client_footprint w conn
              (lazy_credential w ctx
                 (active_directory_resource_id (AZURE_PUBLIC_CLOUD w))
                 app pem thumb)) as [_ Hclient].
  specialize (Hclient _ Hc).
  exists conn, ctx, app, pem, thumb, (client_pages w client).
  rewrite list_and_print_unfold, Hclient. eauto 6.
Qed.

(** The events of the loop, for a lazy credential. *)
Lemma iterate_lazy_events (P : event → Prop) w ctx r c k t pages : ∀ i,
  P (EvAcquireToken r c k t) →
  (∀ j, P (EvRequestPage j)) →
  (∀ s, P (EvPrint s)) →
  Forall P (trace (iterate (lazy_credential w ctx r c k t) i pages
                     (λ group, print (encode_utf8 (rg_name group))))).
Proof.
  intros i Htoken Hpage Hprint.
  apply (obeys_iterate P).
  - intros u. by repeat constructor.
  - intros x. apply obeys_call; [apply Hprint|done].
  - exact Hpage.
Qed.

(** Every token request of a run is made for the management resource
    of the cloud, with the application id and the certificate
    thumbprint that the connection asset holds, whatever the
    collaborators answer. *)
Theorem tokens_are_requested_for_the_connection w conn :
  get_automation_connection w "AzureRunAsConnection" = inr conn →
  Forall (token_request_of w conn) (trace (module_body w)).
Proof.
  intros Hconn.
  destruct (module_body_cut w) as (before & after & -> & Hbefore & Hafter).
  apply Forall_app. split.
  - eapply Forall_impl; [exact Hbefore|].
    intros ev (_ & Hev & _). by destruct ev.
  - destruct Hafter as [->|(conn' & ctx & app & pem & thumb & pages
                            & Hconn' & Happ & Hthumb & _ & ->)]; [constructor|].
    rewrite Hconn in Hconn'. injection Hconn' as <-.
    constructor; [done|]. by apply iterate_lazy_events.
Qed.

(** The run in the world that answers requests its token for the
    connection's application. *)
Lemma tokens_are_requested_for_the_connection_witness :
  get_automation_connection good_world "AzureRunAsConnection" = inr runas_fields
  ∧ EvAcquireToken "https://management.core.windows.net/" "app-1" "pem-1" "AB12"
    ∈ trace (module_body good_world)
  ∧ Forall (token_request_of good_world runas_fields)
      (trace (module_body good_world)).
Proof.
  split; [reflexivity|]. split.
  - vm_compute. do 14 apply list_elem_of_further. apply list_elem_of_here.
  - exact (tokens_are_requested_for_the_connection good_world runas_fields
             eq_refl).
Defined.

Lemma well_signed_quiet t : ∀ signed,
  Forall (λ ev, is_page_request ev = false) t → well_signed signed t = true.
Proof.
  induction t as [|ev t IH]; intros signed Ht; [done|].
  apply Forall_cons in Ht as [Hev Ht]. cbn [well_signed].
  rewrite Hev. by apply IH.
Qed.

Lemma well_signed_app t1 t2 : ∀ signed,
  well_signed signed t1 = true →
  (∀ signed', well_signed signed' t2 = true) →
  well_signed signed (t1 ++ t2) = true.
Proof.
  induction t1 as [|ev t1 IH]; intros signed H1 H2; [apply H2|].
  cbn [app well_signed] in *. apply andb_true_iff in H1 as [Hev H1].
  rewrite Hev. by apply IH.
Qed.

(** One turn of the loop whose token is granted and whose page answers. *)
Lemma iterate_turn w ctx r c k t (p : page) pages i token groups :
  acquire_token_with_client_certificate w ctx r c k t = inr token →
  p token = inr groups →
  iterate (lazy_credential w ctx r c k t) i (p :: pages)
    (λ group, print (encode_utf8 (rg_name group)))
  = (EvAcquireToken r c k t :: EvRequestPage i :: map printed_line groups
     ++ trace (iterate (lazy_credential w ctx r c k t) (S i) pages
                 (λ group, print (encode_utf8 (rg_name group)))),
     outcome (iterate (lazy_credential w ctx r c k t) (S i) pages
                (λ group, print (encode_utf8 (rg_name group))))).
Proof.
  intros Htoken Hp. cbn [iterate]. rewrite signed_session_lazy, Htoken.
  rewrite call_bind, Hp, call_bind, for_each_print. cbn [trace outcome fst snd].
  unfold mbind, M_bind.
  by destruct (iterate _ (S i) pages _).
Qed.

Lemma well_signed_iterate w ctx r c k t pages : ∀ i signed,
  well_signed signed
    (trace (iterate (lazy_credential w ctx r c k t) i pages
              (λ group, print (encode_utf8 (rg_name group))))) = true.
Proof.
  induction pages as [|p pages IH]; intros i signed; [done|].
  cbn [iterate]. rewrite signed_session_lazy.
  destruct (acquire_token_with_client_certificate w ctx r c k t) as [e|token];
    [reflexivity|].
  rewrite call_bind. cbn [trace fst].
  destruct (p token) as [e|groups]; [reflexivity|].
  rewrite call_bind, for_each_print. cbn [trace fst].
  unfold mbind at 1, M_bind at 1.
  destruct (iterate _ (S i) pages _) as [t' r'] eqn:Hit.
  cbn [trace fst well_signed is_page_request is_acquire_token andb].
  apply well_signed_app.
  - apply well_signed_quiet. apply Forall_forall. intros ev Hev.
    apply list_elem_of_fmap in Hev as (g & -> & _). done.
  - intros signed'. specialize (IH (S i) signed'). by rewrite Hit in IH.
Qed.

Lemma well_signed_split t : ∀ signed t1 ev t2,
  well_signed signed t = true →
  t = t1 ++ ev :: t2 →
  is_page_request ev = true →
  (t1 = [] ∧ signed = true)
  ∨ ∃ t0 ev', t1 = t0 ++ [ev'] ∧ is_acquire_token ev' = true.
Proof.
  induction t as [|ev0 t IH]; intros signed t1 ev t2 Hws Ht Hev.
  { by destruct t1. }
  cbn [well_signed] in Hws. apply andb_true_iff in Hws as [H0 Hws].
  destruct t1 as [|ev1 t1]; cbn [app] in Ht; injection Ht as -> ->.
  - left. by rewrite Hev in H0.
  - right.
    destruct (IH _ _ _ _ Hws eq_refl Hev) as [[-> Hsigned]|(t0 & ev' & -> & Hev')].
    + exists [], ev1. done.
    + exists (ev1 :: t0), ev'. done.
Qed.

(** No page is requested unsigned: in every world, each page request
    of a run comes right after a token request. *)
Theorem page_requests_are_signed w before k after :
  trace (module_body w) = before ++ EvRequestPage k :: after →
  ∃ earlier r c key t, before = earlier ++ [EvAcquireToken r c key t].
Proof.
  intros Hsplit.
  assert (Hws : well_signed false (trace (module_body w)) = true).
  { destruct (module_body_cut w) as (pre & post & -> & Hpre & Hpost).
    apply well_signed_app.
    - apply well_signed_quiet. eapply Forall_impl; [exact Hpre|].
      intros ev (_ & _ & Hev & _). by destruct ev.
    - intros signed.
      destruct Hpost as [->|(conn & ctx & app & pem & thumb & pages
                             & _ & _ & _ & _ & ->)]; [done|].
      cbn [well_signed is_page_request is_acquire_token andb].
      apply well_signed_iterate. }
  destruct (well_signed_split _ _ _ _ _ Hws Hsplit eq_refl)
    as [[_ ?]|(earlier & ev' & -> & Hev')]; [done|].
  destruct ev'; try discriminate. eauto 6.
Qed.

(** The page request of the run in the world that answers. *)
Lemma page_requests_are_signed_witness :
  trace (module_body good_world)
  = (module_trace good_world "pfx-bytes" {| get_privatekey := "key-1" |}
       "tenant-1" "sub-1"
     ++ [EvAcquireToken "https://management.core.windows.net/"
           "app-1" "pem-1" "AB12"])
    ++ EvRequestPage 0 :: [EvPrint "rg-prod"; EvPrint "rg-dev"]
  ∧ ∃ earlier r c key t,
      module_trace good_world "pfx-bytes" {| get_privatekey := "key-1" |}
        "tenant-1" "sub-1"
      ++ [EvAcquireToken "https://management.core.windows.net/"
            "app-1" "pem-1" "AB12"]
      = earlier ++ [EvAcquireToken r c key t].
Proof.
  assert (Hsplit : trace (module_body good_world)
    = (module_trace good_world "pfx-bytes" {| get_privatekey := "key-1" |}
         "tenant-1" "sub-1"
       ++ [EvAcquireToken "https://management.core.windows.net/"
             "app-1" "pem-1" "AB12"])
      ++ EvRequestPage 0 :: [EvPrint "rg-prod"; EvPrint "rg-dev"])
    by (vm_compute; reflexivity).
  split; [exact Hsplit|].
  exact (page_requests_are_signed good_world _ _ _ Hsplit).
Defined.

(** *** What is printed, in any world *)

Lemma printed_quiet t :
  Forall (λ ev, is_print ev = false) t → printed t = [].
Proof.
  induction 1 as [|ev t Hev _ IH]; [done|].
  destruct ev; try discriminate Hev; exact IH.
Qed.

Lemma name_on_page_further p pages token line :
  name_on_page pages token line → name_on_page (p :: pages) token line.
Proof.
  intros (p' & groups & g & Hp & Hgroups & Hg & ->).
  exists p', groups, g. split; [by apply list_elem_of_further|done].
Qed.

(** The lines of the loop come from its pages, answered for the token
    that the credential was granted. *)
Lemma printed_iterate w ctx r c k t pages : ∀ i,
  Forall (λ line, ∃ token,
            acquire_token_with_client_certificate w ctx r c k t = inr token
            ∧ name_on_page pages token line)
    (printed (trace (iterate (lazy_credential w ctx r c k t) i pages
                       (λ group, print (encode_utf8 (rg_name group)))))).
Proof.
  induction pages as [|p pages IH]; intros i; [constructor|].
  destruct (acquire_token_with_client_certificate w ctx r c k t)
    as [e|token] eqn:Htoken.
  { cbn [iterate]. rewrite signed_session_lazy, Htoken. constructor. }
  destruct (p token) as [e|groups] eqn:Hp.
  { cbn [iterate]. rewrite signed_session_lazy, Htoken, call_bind, Hp.
    constructor. }
  rewrite (iterate_turn _ _ _ _ _ _ _ _ _ _ _ Htoken Hp). cbn [trace fst].
  change (printed (EvAcquireToken r c k t :: EvRequestPage i :: ?rest))
    with (printed rest).
  rewrite printed_app, printed_lines. apply Forall_app. split.
  - apply Forall_forall. intros line Hline.
    apply list_elem_of_fmap in Hline as (g & -> & Hg).
    exists token. split; [done|].
    exists p, groups, g. split; [apply list_elem_of_here|done].
  - eapply Forall_impl; [apply (IH (S i))|].
    intros line (token' & Htoken' & Hline).
    injection Htoken' as <-.
    exists token. split; [done|]. by apply name_on_page_further.
Qed.

(** What [initialize_client] returns. *)
Lemma initialize_client_value w conn cred client :
  outcome (initialize_client w conn cred) = inr client →
  ∃ sub, conn !! "SubscriptionId" = Some sub
    ∧ client = {| rc_credentials := cred;
                  rc_subscription_id := sub;
                  rc_base_url := resource_manager (AZURE_PUBLIC_CLOUD w) |}.
Proof.
  unfold initialize_client, getitem, py_str.
  destruct (conn !! "SubscriptionId") as [sub|]; [|done].
  rewrite ret_bind. destruct (forallb _ _); [|done].
  rewrite ret_bind.
  destruct (new_ResourceManagementClient w sub _) as [e|[]]; [done|].
  rewrite call_bind. cbn. intros [= <-]. eauto.
Qed.

(** Nothing but the listed names is printed: in every world, each line
    a run prints is the UTF-8 encoded name of a group on a page of the
    listing of the run's own client (the subscription of the retrieved
    connection, at the cloud's resource manager), as that page answered
    the token granted to the run's credential. *)
Theorem only_listed_names_are_printed w :
  Forall (listed_name w) (printed (trace (module_body w))).
Proof.
  assert (Hquiet : ∀ t, Forall before_listing t → printed t = []).
  { intros t Ht. apply printed_quiet. eapply Forall_impl; [exact Ht|].
    by intros ev (_ & _ & _ & Hev). }
  destruct (outcome (authenticate w)) as [e|[conn cred]] eqn:Ha.
  { rewrite (module_body_authenticate_raises _ _ Ha). cbn [trace fst].
    rewrite (Hquiet _ (proj1 (authenticate_footprint w))). constructor. }
  destruct (outcome (initialize_client w conn cred)) as [e|client] eqn:Hc.
  { rewrite (module_body_client_raises _ _ _ _ Ha Hc). cbn [trace fst].
    rewrite printed_app, (Hquiet _ (proj1 (authenticate_footprint w))),
      (Hquiet _ (proj1 (initialize_client_footprint w conn cred))).
    constructor. }
  rewrite (module_body_listing _ _ _ _ Ha Hc). cbn [trace fst].
  rewrite !printed_app, (Hquiet _ (proj1 (authenticate_footprint w))),
    (Hquiet _ (proj1 (initialize_client_footprint w conn cred))).
  cbn [app].
  destruct (authenticate_value _ _ _ Ha) as ([_ Hconn] & Hcred & _).
  destruct (credential_value _ _ _ _ _ Hcred)
    as (app & thumb & tenant & cert & p12 & pem & ctx
        & Happ & Hthumb & Htenant & Hsetup & ->).
  destruct (initialize_client_value _ _ _ _ Hc) as (sub & Hsub & ->).
  rewrite list_and_print_unfold. cbn [trace fst rc_credentials].
  change (printed (EvResourceGroupsList :: ?t)) with (printed t).
  change (client_pages w _) with (pages_of w sub).
  eapply Forall_impl; [apply printed_iterate|].
  intros line (token & Htoken & Hline).
  exists conn, app, thumb, tenant, sub, cert, p12, pem, ctx, token.
  split; [exact Hconn|]. split; [by repeat split|].
  split; [exact Hsetup|]. split; [exact Htoken|exact Hline].
Qed.

(** *** How often things happen *)

Lemma occurrences_quiet kind t :
  Forall (λ ev, kind ev = false) t → occurrences kind t = 0.
Proof.
  induction 1 as [|ev t Hev _ IH]; [done|].
  unfold occurrences in *. cbn [List.filter]. by rewrite Hev.
Qed.

(** In the loop, a token is requested for each page requested, and at
    most once more. *)
Lemma token_per_page_iterate w ctx r c k t pages : ∀ i,
  let loop := trace (iterate (lazy_credential w ctx r c k t) i pages
                       (λ group, print (encode_utf8 (rg_name group)))) in
  occurrences is_page_request loop ≤ occurrences is_acquire_token loop
  ∧ occurrences is_acquire_token loop ≤ S (occurrences is_page_request loop)
  ∧ occurrences is_page_request loop ≤ length pages.
Proof.
  induction pages as [|p pages IH]; intros i.
  { cbn. unfold occurrences. cbn. lia. }
  cbn zeta.
  destruct (acquire_token_with_client_certificate w ctx r c k t)
    as [e|token] eqn:Htoken.
  { cbn [iterate]. rewrite signed_session_lazy, Htoken.
    cbn. unfold occurrences. cbn. lia. }
  destruct (p token) as [e|groups] eqn:Hp.
  { cbn [iterate]. rewrite signed_session_lazy, Htoken, call_bind, Hp.
    cbn. unfold occurrences. cbn. lia. }
  rewrite (iterate_turn _ _ _ _ _ _ _ _ _ _ _ Htoken Hp). cbn [trace fst].
  specialize (IH (S i)). cbn zeta in IH.
  set (rest := trace (iterate _ (S i) pages _)) in *.
  change (occurrences is_page_request
            (EvAcquireToken r c k t :: EvRequestPage i
             :: map printed_line groups ++ rest))
    with (S (occurrences is_page_request (map printed_line groups ++ rest))).
  change (occurrences is_acquire_token
            (EvAcquireToken r c k t :: EvRequestPage i
             :: map printed_line groups ++ rest))
    with (S (occurrences is_acquire_token (map printed_line groups ++ rest))).
  rewrite !occurrences_app, !occurrences_printed_lines by done.
  cbn [length]. lia.
Qed.

(** One token per page: in every world, a run requests a token for each
    page it requests and at most one token more (the one that was
    refused, or whose page was never asked for). *)
Theorem one_token_per_page w :
  occurrences is_page_request (trace (module_body w))
  ≤ occurrences is_acquire_token (trace (module_body w))
  ∧ occurrences is_acquire_token (trace (module_body w))
    ≤ S (occurrences is_page_request (trace (module_body w))).
Proof.
  destruct (module_body_cut w) as (before & after & -> & Hbefore & Hafter).
  rewrite !occurrences_app.
  rewrite (occurrences_quiet is_page_request before),
    (occurrences_quiet is_acquire_token before).
  2: { eapply Forall_impl; [exact Hbefore|]. by intros ev (_ & Hev & _). }
  2: { eapply Forall_impl; [exact Hbefore|].
       intros ev (_ & _ & Hev & _). by destruct ev. }
  destruct Hafter as [->|(conn & ctx & app & pem & thumb & pages
                          & _ & _ & _ & _ & ->)].
  { unfold occurrences. cbn. lia. }
  change (occurrences is_page_request (EvResourceGroupsList :: ?t))
    with (occurrences is_page_request t).
  change (occurrences is_acquire_token (EvResourceGroupsList :: ?t))
    with (occurrences is_acquire_token t).
  pose proof (token_per_page_iterate w ctx
                (active_directory_resource_id (AZURE_PUBLIC_CLOUD w))
                app pem thumb pages 0) as H.
  cbn zeta in H. lia.
Qed.

Section Counting.
Context (kind : event → bool).

Lemma occurrences_call_bind {A B} ev (r : exn + A) (k : A → M B) (b : bool) n :
  kind ev = b →
  (∀ a, occurrences kind (trace (k a)) ≤ n) →
  occurrences kind (trace (call ev r ≫= k)) ≤ (if b then 1 else 0) + n.
Proof.
  intros <- Hk. destruct r as [e|a].
  - unfold occurrences. cbn. destruct (kind ev); cbn; lia.
  - rewrite call_bind. cbn [trace fst]. specialize (Hk a).
    unfold occurrences in *. cbn [List.filter].
    destruct (kind ev); cbn [length]; lia.
Qed.

Lemma occurrences_getitem_bind {B} d key (k : string → M B) n :
  (∀ v, occurrences kind (trace (k v)) ≤ n) →
  occurrences kind (trace (getitem d key ≫= k)) ≤ n.
Proof.
  intros Hk. unfold getitem. destruct (d !! key) as [v|].
  - rewrite ret_bind. apply Hk.
  - unfold occurrences. cbn. lia.
Qed.

Lemma occurrences_py_str_bind {B} u (k : string → M B) n :
  (∀ v, occurrences kind (trace (k v)) ≤ n) →
  occurrences kind (trace (py_str u ≫= k)) ≤ n.
Proof.
  intros Hk. unfold py_str. destruct (forallb _ _).
  - rewrite ret_bind. apply Hk.
  - unfold occurrences. cbn. lia.
Qed.

Lemma occurrences_bind {A B} (m : M A) (k : A → M B) a b :
  occurrences kind (trace m) ≤ a →
  (∀ x, occurrences kind (trace (k x)) ≤ b) →
  occurrences kind (trace (m ≫= k)) ≤ a + b.
Proof.
  intros Hm Hk. destruct (outcome m) as [e|x] eqn:Ho.
  - rewrite (bind_raised _ _ _ Ho). cbn [trace fst]. lia.
  - rewrite (bind_returned _ _ _ Ho). cbn [trace fst].
    rewrite occurrences_app. specialize (Hk x). lia.
Qed.

Lemma occurrences_ret {A} (a : A) : occurrences kind (trace (mret a)) ≤ 0.
Proof. unfold occurrences. cbn. lia. Qed.

End Counting.

(** One statement of a straight-line body, counted. *)
Local Ltac count :=
  lazymatch goal with
  | |- occurrences _ (trace (call _ _ ≫= _)) ≤ _ =>
    eapply occurrences_call_bind; [cbn; reflexivity|intros ?]
  | |- occurrences _ (trace (getitem _ _ ≫= _)) ≤ _ =>
    eapply occurrences_getitem_bind; intros ?
  | |- occurrences _ (trace (py_str _ ≫= _)) ≤ _ =>
    eapply occurrences_py_str_bind; intros ?
  | |- occurrences _ (trace (mret _)) ≤ _ => apply occurrences_ret
  end.

Local Ltac counted body :=
  eapply Nat.le_trans; [unfold body, import; repeat count|cbn; lia].

Lemma authenticate_occurrences w :
  occurrences is_connection_read (trace (authenticate w)) ≤ 1
  ∧ occurrences is_certificate_read (trace (authenticate w)) ≤ 1
  ∧ occurrences is_new_context (trace (authenticate w)) ≤ 1
  ∧ occurrences is_client_init (trace (authenticate w)) ≤ 0
  ∧ occurrences is_list_call (trace (authenticate w)) ≤ 0.
Proof.
  assert (Hcred : ∀ conn r a,
    occurrences is_connection_read
      (trace (get_automation_runas_credential w conn r a)) ≤ 0
    ∧ occurrences is_certificate_read
        (trace (get_automation_runas_credential w conn r a)) ≤ 1
    ∧ occurrences is_new_context
        (trace (get_automation_runas_credential w conn r a)) ≤ 1
    ∧ occurrences is_client_init
        (trace (get_automation_runas_credential w conn r a)) ≤ 0
    ∧ occurrences is_list_call
        (trace (get_automation_runas_credential w conn r a)) ≤ 0).
  { intros conn r a.
    repeat split; counted get_automation_runas_credential. }
  repeat split.
  all: eapply Nat.le_trans;
    [unfold authenticate, import; repeat count;
     eapply occurrences_bind; [apply Hcred|intros ?; apply occurrences_ret]
    |cbn; lia].
Qed.

Lemma initialize_client_occurrences w conn cred :
  occurrences is_connection_read (trace (initialize_client w conn cred)) ≤ 0
  ∧ occurrences is_certificate_read (trace (initialize_client w conn cred)) ≤ 0
  ∧ occurrences is_new_context (trace (initialize_client w conn cred)) ≤ 0
  ∧ occurrences is_client_init (trace (initialize_client w conn cred)) ≤ 1
  ∧ occurrences is_list_call (trace (initialize_client w conn cred)) ≤ 0.
Proof. repeat split; counted initialize_client. Qed.

Lemma module_body_occurrences kind w a b :
  occurrences kind (trace (authenticate w)) ≤ a →
  (∀ conn cred, occurrences kind (trace (initialize_client w conn cred)) ≤ b) →
  (∀ r c k t, kind (EvAcquireToken r c k t) = false) →
  (∀ j, kind (EvRequestPage j) = false) →
  (∀ s, kind (EvPrint s) = false) →
  occurrences kind (trace (module_body w))
  ≤ a + b + (if kind EvResourceGroupsList then 1 else 0).
Proof.
  intros Hauth Hinit Htoken Hpage Hprint.
  destruct (outcome (authenticate w)) as [e|[conn cred]] eqn:Ha.
  { rewrite (module_body_authenticate_raises _ _ Ha). cbn [trace fst]. lia. }
  specialize (Hinit conn cred).
  destruct (outcome (initialize_client w conn cred)) as [e|client] eqn:Hc.
  { rewrite (module_body_client_raises _ _ _ _ Ha Hc). cbn [trace fst].
    rewrite occurrences_app. lia. }
  rewrite (module_body_listing _ _ _ _ Ha Hc). cbn [trace fst].
  rewrite !occurrences_app, list_and_print_unfold. cbn [trace fst].
  destruct (authenticate_value _ _ _ Ha) as (_ & Hcred & _).
  destruct (credential_value _ _ _ _ _ Hcred)
    as (app & thumb & tenant & cert & p12 & pem & ctx & _ & _ & _ & _ & ->).
  destruct (initialize_client_footprint w conn
              (lazy_credential w ctx
                 (active_directory_resource_id (AZURE_PUBLIC_CLOUD w))
                 app pem thumb)) as [_ Hclient].
  rewrite (Hclient _ Hc).
  pose proof (occurrences_quiet kind _
    (iterate_lazy_events (λ ev, kind ev = false) w ctx
       (active_directory_resource_id (AZURE_PUBLIC_CLOUD w)) app pem thumb
       (client_pages w client) 0 (Htoken _ _ _ _) Hpage Hprint)) as Hloop.
  unfold occurrences in *. cbn [List.filter].
  destruct (kind EvResourceGroupsList); cbn [length]; lia.
Qed.

(** Once per run at most: in every world, a run reads the connection
    asset at most once and the certificate asset at most once, creates
    at most one authentication context, constructs at most one client
    and calls resource_groups.list() at most once. *)
Theorem each_step_happens_at_most_once w :
  occurrences is_connection_read (trace (module_body w)) ≤ 1
  ∧ occurrences is_certificate_read (trace (module_body w)) ≤ 1
  ∧ occurrences is_new_context (trace (module_body w)) ≤ 1
  ∧ occurrences is_client_init (trace (module_body w)) ≤ 1
  ∧ occurrences is_list_call (trace (module_body w)) ≤ 1.
Proof.
  destruct (authenticate_occurrences w) as (Ha1 & Ha2 & Ha3 & Ha4 & Ha5).
  repeat split.
  - eapply Nat.le_trans;
      [apply (module_body_occurrences _ w 1 0 Ha1); try done;
       intros; apply initialize_client_occurrences|cbn; lia].
  - eapply Nat.le_trans;
      [apply (module_body_occurrences _ w 1 0 Ha2); try done;
       intros; apply initialize_client_occurrences|cbn; lia].
  - eapply Nat.le_trans;
      [apply (module_body_occurrences _ w 1 0 Ha3); try done;
       intros; apply initialize_client_occurrences|cbn; lia].
  - eapply Nat.le_trans;
      [apply (module_body_occurrences _ w 0 1 Ha4); try done;
       intros; apply initialize_client_occurrences|cbn; lia].
  - eapply Nat.le_trans;
      [apply (module_body_occurrences _ w 0 0 Ha5); try done;
       intros; apply initialize_client_occurrences|cbn; lia].
Qed.

(** *** Names in ASCII *)

Lemma encode_utf8_ascii u :
  forallb is_ascii (list_ascii_of_string u) = true → encode_utf8 u = u.
Proof.
  unfold encode_utf8. intros Hu.
  rewrite <- (string_of_list_ascii_of_string u) at 2. f_equal.
  induction (list_ascii_of_string u) as [|c cs IH]; [done|].
  cbn [forallb] in Hu. apply andb_true_iff in Hu as [Hc Hcs].
  cbn [map concat]. rewrite (IH Hcs). unfold utf8_char.
  unfold is_ascii in Hc. by rewrite Hc.
Qed.

(** Names in ASCII are printed as they are: when the whole listing is
    obtained and every group name is ASCII, the lines printed are the
    names of the groups, unchanged, page after page. *)
Theorem ascii_names_are_printed_unchanged
    w conn app thumb tenant sub cert p12 pem ctx token answers :
  module_answers w conn sub →
  runas_connection_has conn app thumb tenant sub →
  setup_answers w (active_directory (AZURE_PUBLIC_CLOUD w) +:+ "/" +:+ tenant)
    cert p12 pem ctx →
  acquire_token_with_client_certificate w ctx
    (active_directory_resource_id (AZURE_PUBLIC_CLOUD w)) app pem thumb
  = inr token →
  Forall2 (λ (p : page) groups, p token = inr groups) (pages_of w sub) answers →
  Forall (λ g, forallb is_ascii (list_ascii_of_string (rg_name g)) = true)
    (concat answers) →
  printed (trace (module_body w)) = map rg_name (concat answers).
Proof.
  intros Hmodule Hconn Hsetup Htoken Hpages Hascii.
  destruct (listing_prints_every_group _ _ _ _ _ _ _ _ _ _ _ _
              Hmodule Hconn Hsetup Htoken Hpages) as (_ & -> & _).
  induction Hascii as [|g gs Hg _ IH]; [done|].
  cbn [map]. by rewrite IH, (encode_utf8_ascii _ Hg).
Qed.

(** The two pages of three groups with ASCII names. *)
Lemma ascii_names_are_printed_unchanged_witness :
  module_answers two_pages runas_fields "sub-1"
  ∧ runas_connection_has runas_fields "app-1" "AB12" "tenant-1" "sub-1"
  ∧ Forall (λ g, forallb is_ascii (list_ascii_of_string (rg_name g)) = true)
      (concat [page_one; page_two])
  ∧ printed (trace (module_body two_pages)) = ["rg-prod"; "rg-dev"; "rg-test"].
Proof.
  assert (Hmodule : module_answers two_pages runas_fields "sub-1").
  { repeat split; repeat constructor. }
  assert (Hconn : runas_connection_has runas_fields
                    "app-1" "AB12" "tenant-1" "sub-1").
  { repeat split; vm_compute; reflexivity. }
  assert (Hascii : Forall (λ g, forallb is_ascii
                                  (list_ascii_of_string (rg_name g)) = true)
                     (concat [page_one; page_two])).
  { repeat constructor. }
  do 3 (split; [assumption|]).
  apply (ascii_names_are_printed_unchanged two_pages runas_fields
           "app-1" "AB12" "tenant-1" "sub-1" "pfx-bytes"
           {| get_privatekey := "key-1" |} "pem-1"
           {| authority := "https://login.microsoftonline.com/tenant-1" |}
           "token-1" [page_one; page_two] Hmodule Hconn).
  - repeat split; repeat constructor.
  - reflexivity.
  - repeat constructor.
  - exact Hascii.
Defined.
